(** * MP/M II emulator: XIOS trap dispatcher and console queue

    A shallow embedding of [src/xios.cpp] (class [XIOS]) and of
    [console_queue.h] (class template [ConsoleQueue]), with the properties
    the design document states about them.

    Integers are [Z] with the wrap-around of the C++ types written out.
    The objects [XIOS] only holds pointers to (the CPU, the banked memory)
    and the process-wide singletons it calls ([DiskSystem::instance()],
    [ConsoleManager::instance()]) are part of one explicit state, and
    every call made to a collaborator is recorded in a trace. *)

From Stdlib Require Import ZArith List Bool Lia.
From Stdlib Require Strings.Byte.
Import ListNotations.
Local Open Scope Z_scope.

(** ** Fixed-width integers *)

(** Conversion to [uint8_t] and to [uint16_t]. *)
Definition u8 (v : Z) : Z := v mod 256.
Definition u16 (v : Z) : Z := v mod 65536.

(** ** State passing *)

(** An action on a state [S] answering an [A]. *)
Definition Act (S A : Type) : Type := S -> A * S.

Definition ret {S A : Type} (a : A) : Act S A := fun s => (a, s).
Definition bind {S A B : Type} (m : Act S A) (k : A -> Act S B) : Act S B :=
  fun s => let (a, s') := m s in k a s'.
Definition gets {S A : Type} (f : S -> A) : Act S A := fun s => (f s, s).
Definition modify {S : Type} (f : S -> S) : Act S unit := fun s => (tt, f s).
Definition when {S : Type} (b : bool) (m : Act S unit) : Act S unit :=
  if b then m else ret tt.
Definition exec {S A : Type} (m : Act S A) (s : S) : S := snd (m s).

Declare Scope act_scope.
Delimit Scope act_scope with act.
Notation "x <- m ;; k" := (bind m (fun x => k))
  (at level 61, m at next level, right associativity) : act_scope.
Notation "m ;; k" := (bind m (fun _ => k))
  (at level 61, right associativity) : act_scope.
Local Open Scope act_scope.

(** ** Entry-point offsets *)

(** Modelled from the spec: [xios.h], which declares the [XIOS_*] offsets
    and [MAX_CONSOLES], is not among the sources.  The offsets are
    3 * slot index in the order of the jump table of [xios.asm]
    (00H cold boot ... 48H idle); [is_xios_call] names 0x48 and 0x30 in its
    comments. *)
Definition XIOS_BOOT : Z := 0x00.
Definition XIOS_WBOOT : Z := 0x03.
Definition XIOS_CONST : Z := 0x06.
Definition XIOS_CONIN : Z := 0x09.
Definition XIOS_CONOUT : Z := 0x0C.
Definition XIOS_LIST : Z := 0x0F.
Definition XIOS_PUNCH : Z := 0x12.
Definition XIOS_READER : Z := 0x15.
Definition XIOS_HOME : Z := 0x18.
Definition XIOS_SELDSK : Z := 0x1B.
Definition XIOS_SETTRK : Z := 0x1E.
Definition XIOS_SETSEC : Z := 0x21.
Definition XIOS_SETDMA : Z := 0x24.
Definition XIOS_READ : Z := 0x27.
Definition XIOS_WRITE : Z := 0x2A.
Definition XIOS_LISTST : Z := 0x2D.
Definition XIOS_SECTRAN : Z := 0x30.
Definition XIOS_SELMEMORY : Z := 0x33.
Definition XIOS_POLLDEVICE : Z := 0x36.
Definition XIOS_STARTCLOCK : Z := 0x39.
Definition XIOS_STOPCLOCK : Z := 0x3C.
Definition XIOS_EXITREGION : Z := 0x3F.
Definition XIOS_MAXCONSOLE : Z := 0x42.
Definition XIOS_SYSTEMINIT : Z := 0x45.
Definition XIOS_IDLE : Z := 0x48.

(** ** The CPU collaborator *)

(** A register pair of [qkz80] holds 16 bits; [get_low]/[get_high] are its
    two bytes, [set_pair16] and [set_high] take a [uint16_t] and a
    [uint8_t]. *)
Module Pair16.
Definition get_pair16 (r : Z) : Z := r.
Definition get_low (r : Z) : Z := Z.land r 0xFF.
Definition get_high (r : Z) : Z := Z.land (Z.shiftr r 8) 0xFF.
Definition set_pair16 (v : Z) : Z := u16 v.
Definition set_high (r v : Z) : Z := Z.lor (Z.shiftl (u8 v) 8) (get_low r).
End Pair16.

Record qkz80_regs : Type := mkRegs {
  AF : Z; BC : Z; DE : Z; HL : Z; SP : Z; PC : Z;
  IFF1 : Z; IFF2 : Z
}.

Definition with_AF (v : Z) (r : qkz80_regs) : qkz80_regs :=
  mkRegs v (BC r) (DE r) (HL r) (SP r) (PC r) (IFF1 r) (IFF2 r).
Definition with_BC (v : Z) (r : qkz80_regs) : qkz80_regs :=
  mkRegs (AF r) v (DE r) (HL r) (SP r) (PC r) (IFF1 r) (IFF2 r).
Definition with_DE (v : Z) (r : qkz80_regs) : qkz80_regs :=
  mkRegs (AF r) (BC r) v (HL r) (SP r) (PC r) (IFF1 r) (IFF2 r).
Definition with_HL (v : Z) (r : qkz80_regs) : qkz80_regs :=
  mkRegs (AF r) (BC r) (DE r) v (SP r) (PC r) (IFF1 r) (IFF2 r).
Definition with_SP (v : Z) (r : qkz80_regs) : qkz80_regs :=
  mkRegs (AF r) (BC r) (DE r) (HL r) v (PC r) (IFF1 r) (IFF2 r).
Definition with_PC (v : Z) (r : qkz80_regs) : qkz80_regs :=
  mkRegs (AF r) (BC r) (DE r) (HL r) (SP r) v (IFF1 r) (IFF2 r).
Definition with_IFF (v1 v2 : Z) (r : qkz80_regs) : qkz80_regs :=
  mkRegs (AF r) (BC r) (DE r) (HL r) (SP r) (PC r) v1 v2.

(** ** The other collaborators, as interfaces *)

(** [BankedMemory]: a byte fetch at a 16-bit guest address and the bank
    switch. *)
Class BankedMemory (M : Type) : Type := {
  fetch_mem : M -> Z -> Z;
  select_bank : M -> Z -> M
}.

(** [DiskSystem]: the disk engine.  [select] answers whether the disk is
    mounted; [read] and [write] transfer between the disk image and guest
    memory and answer a status code. *)
Class DiskSystem (D M : Type) : Type := {
  disk_select : D -> Z -> bool * D;
  disk_set_track : D -> Z -> D;
  disk_set_sector : D -> Z -> D;
  disk_set_dma : D -> Z -> D;
  disk_read : D -> M -> Z * D * M;
  disk_write : D -> M -> Z * D * M
}.

(** [ConsoleManager] and its [Console]s: [console_get c i] says whether
    [get(i)] is a console (not a null pointer). *)
Class ConsoleManager (C : Type) : Type := {
  console_get : C -> Z -> bool;
  const_status : C -> Z -> Z * C;
  read_char : C -> Z -> Z * C;
  write_char : C -> Z -> Z -> C;
  console_init : C -> C
}.

(** Calls made to the collaborators, in the order they are made. *)
Inductive Event : Type :=
| EvFetch (addr : Z)
| EvSelectBank (bank : Z)
| EvDiskSelect (disk : Z)
| EvSetTrack (track : Z)
| EvSetSector (sector : Z)
| EvSetDma (dma : Z)
| EvDiskRead
| EvDiskWrite
| EvConstStatus (console : Z)
| EvReadChar (console : Z)
| EvWriteChar (console ch : Z)
| EvConsoleInit.

Section XIOS.

Context {M D C : Type}.
Context {MemOps : BankedMemory M} {DiskOps : DiskSystem D M}
        {ConOps : ConsoleManager C}.

(** [MAX_CONSOLES] of the missing [xios.h]. *)
Variable MAX_CONSOLES : Z.

(** ** Dispatcher state *)

(** The members of [XIOS], the objects behind its pointers, the two
    singletons, the function-local [static int call_count] of [do_bdos]
    and the trace of collaborator calls.  The addresses and the latched
    track, sector and DMA address are 16-bit, as the register pairs they
    are loaded from; [current_disk_] is a byte. *)
Record XIOS : Type := mkXIOS {
  cpu_ : qkz80_regs;
  mem_ : M;
  xios_base_ : Z;
  ldrbios_base_ : Z;
  bdos_stub_ : Z;
  current_disk_ : Z;
  current_track_ : Z;
  current_sector_ : Z;
  dma_addr_ : Z;
  tick_enabled_ : bool;
  preempted_ : bool;
  disks_ : D;
  consoles_ : C;
  call_count : Z;
  trace : list Event
}.

(** The constructor [XIOS::XIOS(cpu, mem)]. *)
Definition XIOS_new (cpu : qkz80_regs) (mem : M) (d : D) (c : C) : XIOS :=
  mkXIOS cpu mem 0xFC00 0x1700 0x0D06 0 0 0 0x0080 false false d c 0 [].

Definition set_cpu (f : qkz80_regs -> qkz80_regs) (x : XIOS) : XIOS :=
  mkXIOS (f (cpu_ x)) (mem_ x) (xios_base_ x) (ldrbios_base_ x) (bdos_stub_ x)
    (current_disk_ x) (current_track_ x) (current_sector_ x) (dma_addr_ x)
    (tick_enabled_ x) (preempted_ x) (disks_ x) (consoles_ x) (call_count x)
    (trace x).
Definition set_mem (m : M) (x : XIOS) : XIOS :=
  mkXIOS (cpu_ x) m (xios_base_ x) (ldrbios_base_ x) (bdos_stub_ x)
    (current_disk_ x) (current_track_ x) (current_sector_ x) (dma_addr_ x)
    (tick_enabled_ x) (preempted_ x) (disks_ x) (consoles_ x) (call_count x)
    (trace x).
Definition set_xios_base (v : Z) (x : XIOS) : XIOS :=
  mkXIOS (cpu_ x) (mem_ x) v (ldrbios_base_ x) (bdos_stub_ x)
    (current_disk_ x) (current_track_ x) (current_sector_ x) (dma_addr_ x)
    (tick_enabled_ x) (preempted_ x) (disks_ x) (consoles_ x) (call_count x)
    (trace x).
Definition set_current_disk (v : Z) (x : XIOS) : XIOS :=
  mkXIOS (cpu_ x) (mem_ x) (xios_base_ x) (ldrbios_base_ x) (bdos_stub_ x)
    v (current_track_ x) (current_sector_ x) (dma_addr_ x)
    (tick_enabled_ x) (preempted_ x) (disks_ x) (consoles_ x) (call_count x)
    (trace x).
Definition set_current_track (v : Z) (x : XIOS) : XIOS :=
  mkXIOS (cpu_ x) (mem_ x) (xios_base_ x) (ldrbios_base_ x) (bdos_stub_ x)
    (current_disk_ x) v (current_sector_ x) (dma_addr_ x)
    (tick_enabled_ x) (preempted_ x) (disks_ x) (consoles_ x) (call_count x)
    (trace x).
Definition set_current_sector (v : Z) (x : XIOS) : XIOS :=
  mkXIOS (cpu_ x) (mem_ x) (xios_base_ x) (ldrbios_base_ x) (bdos_stub_ x)
    (current_disk_ x) (current_track_ x) v (dma_addr_ x)
    (tick_enabled_ x) (preempted_ x) (disks_ x) (consoles_ x) (call_count x)
    (trace x).
Definition set_dma_addr (v : Z) (x : XIOS) : XIOS :=
  mkXIOS (cpu_ x) (mem_ x) (xios_base_ x) (ldrbios_base_ x) (bdos_stub_ x)
    (current_disk_ x) (current_track_ x) (current_sector_ x) v
    (tick_enabled_ x) (preempted_ x) (disks_ x) (consoles_ x) (call_count x)
    (trace x).
Definition set_tick_enabled (v : bool) (x : XIOS) : XIOS :=
  mkXIOS (cpu_ x) (mem_ x) (xios_base_ x) (ldrbios_base_ x) (bdos_stub_ x)
    (current_disk_ x) (current_track_ x) (current_sector_ x) (dma_addr_ x)
    v (preempted_ x) (disks_ x) (consoles_ x) (call_count x)
    (trace x).
Definition set_preempted (v : bool) (x : XIOS) : XIOS :=
  mkXIOS (cpu_ x) (mem_ x) (xios_base_ x) (ldrbios_base_ x) (bdos_stub_ x)
    (current_disk_ x) (current_track_ x) (current_sector_ x) (dma_addr_ x)
    (tick_enabled_ x) v (disks_ x) (consoles_ x) (call_count x)
    (trace x).
Definition set_disks (d : D) (x : XIOS) : XIOS :=
  mkXIOS (cpu_ x) (mem_ x) (xios_base_ x) (ldrbios_base_ x) (bdos_stub_ x)
    (current_disk_ x) (current_track_ x) (current_sector_ x) (dma_addr_ x)
    (tick_enabled_ x) (preempted_ x) d (consoles_ x) (call_count x)
    (trace x).
Definition set_consoles (c : C) (x : XIOS) : XIOS :=
  mkXIOS (cpu_ x) (mem_ x) (xios_base_ x) (ldrbios_base_ x) (bdos_stub_ x)
    (current_disk_ x) (current_track_ x) (current_sector_ x) (dma_addr_ x)
    (tick_enabled_ x) (preempted_ x) (disks_ x) c (call_count x)
    (trace x).
Definition set_call_count (v : Z) (x : XIOS) : XIOS :=
  mkXIOS (cpu_ x) (mem_ x) (xios_base_ x) (ldrbios_base_ x) (bdos_stub_ x)
    (current_disk_ x) (current_track_ x) (current_sector_ x) (dma_addr_ x)
    (tick_enabled_ x) (preempted_ x) (disks_ x) (consoles_ x) v
    (trace x).
Definition log (e : Event) (x : XIOS) : XIOS :=
  mkXIOS (cpu_ x) (mem_ x) (xios_base_ x) (ldrbios_base_ x) (bdos_stub_ x)
    (current_disk_ x) (current_track_ x) (current_sector_ x) (dma_addr_ x)
    (tick_enabled_ x) (preempted_ x) (disks_ x) (consoles_ x) (call_count x)
    (trace x ++ [e]).

(** ** Trap classification *)

(** [XIOS::is_xios_call].  The comparisons are made on [int] (no wrap of
    [xios_base_ + 0x100]); the offset is a [uint16_t]. *)
Definition is_xios_call (x : XIOS) (pc : Z) : bool :=
  if (xios_base_ x <=? pc) && (pc <? xios_base_ x + 0x100) then
    let offset := u16 (pc - xios_base_ x) in
    (offset <=? XIOS_IDLE) && (offset mod 3 =? 0)
  else if (ldrbios_base_ x <=? pc) && (pc <? ldrbios_base_ x + 0x100) then
    let offset := u16 (pc - ldrbios_base_ x) in
    (offset <=? XIOS_SECTRAN) && (offset mod 3 =? 0)
  else false.

(** ** Primitive actions: registers and collaborator calls *)

Definition reg (f : qkz80_regs -> Z) : Act XIOS Z := gets (fun x => f (cpu_ x)).
Definition set_A (v : Z) : Act XIOS unit :=
  modify (set_cpu (fun r => with_AF (Pair16.set_high (AF r) v) r)).
Definition set_HL (v : Z) : Act XIOS unit :=
  modify (set_cpu (with_HL (Pair16.set_pair16 v))).
Definition set_SP (v : Z) : Act XIOS unit :=
  modify (set_cpu (with_SP (Pair16.set_pair16 v))).
Definition set_PC (v : Z) : Act XIOS unit :=
  modify (set_cpu (with_PC (Pair16.set_pair16 v))).

(** [mem_->fetch_mem(addr)] stored in a [uint8_t].  The address is handed
    over as the code computes it; its conversion to the parameter type is
    the memory's. *)
Definition mem_fetch (addr : Z) : Act XIOS Z :=
  fun x => (u8 (fetch_mem (mem_ x) addr), log (EvFetch addr) x).
Definition mem_select_bank (bank : Z) : Act XIOS unit :=
  fun x => (tt, log (EvSelectBank bank) (set_mem (select_bank (mem_ x) bank) x)).

Definition ds_select (disk : Z) : Act XIOS bool :=
  fun x => let (ok, d) := disk_select (disks_ x) disk in
           (ok, log (EvDiskSelect disk) (set_disks d x)).
Definition ds_set_track (v : Z) : Act XIOS unit :=
  fun x => (tt, log (EvSetTrack v) (set_disks (disk_set_track (disks_ x) v) x)).
Definition ds_set_sector (v : Z) : Act XIOS unit :=
  fun x => (tt, log (EvSetSector v) (set_disks (disk_set_sector (disks_ x) v) x)).
Definition ds_set_dma (v : Z) : Act XIOS unit :=
  fun x => (tt, log (EvSetDma v) (set_disks (disk_set_dma (disks_ x) v) x)).
Definition ds_read : Act XIOS Z :=
  fun x => let '(r, d, m) := disk_read (disks_ x) (mem_ x) in
           (r, log EvDiskRead (set_mem m (set_disks d x))).
Definition ds_write : Act XIOS Z :=
  fun x => let '(r, d, m) := disk_write (disks_ x) (mem_ x) in
           (r, log EvDiskWrite (set_mem m (set_disks d x))).

(** [ConsoleManager::instance().get(console) != nullptr]. *)
Definition con_get (console : Z) : Act XIOS bool :=
  gets (fun x => console_get (consoles_ x) console).
Definition con_const_status (console : Z) : Act XIOS Z :=
  fun x => let (v, c) := const_status (consoles_ x) console in
           (v, log (EvConstStatus console) (set_consoles c x)).
Definition con_read_char (console : Z) : Act XIOS Z :=
  fun x => let (v, c) := read_char (consoles_ x) console in
           (v, log (EvReadChar console) (set_consoles c x)).
Definition con_write_char (console ch : Z) : Act XIOS unit :=
  fun x => (tt, log (EvWriteChar console ch)
                  (set_consoles (write_char (consoles_ x) console ch) x)).
Definition con_init : Act XIOS unit :=
  fun x => (tt, log EvConsoleInit (set_consoles (console_init (consoles_ x)) x)).

(** [con && con->const_status()]: the status is only asked of a console
    that exists. *)
Definition con_ready (console : Z) : Act XIOS bool :=
  con <- con_get console ;;
  if con then s <- con_const_status console ;; ret (negb (s =? 0))
  else ret false.

(** ** The synthetic return *)

(** [XIOS::do_ret]. *)
Definition do_ret : Act XIOS unit :=
  sp <- reg SP ;;
  lo <- mem_fetch sp ;;
  hi <- mem_fetch (sp + 1) ;;
  set_SP (sp + 2) ;;
  set_PC (Z.lor (Z.shiftl hi 8) lo).

(** ** Handlers of the entry points *)

Definition do_const : Act XIOS unit :=
  d <- reg DE ;;
  let console := Pair16.get_high d in
  con <- con_get console ;;
  (if con then s <- con_const_status console ;; set_A s else set_A 0x00) ;;
  do_ret.

Definition do_conin : Act XIOS unit :=
  d <- reg DE ;;
  let console := Pair16.get_high d in
  con <- con_get console ;;
  (if con then ch <- con_read_char console ;; set_A ch else set_A 0x1A) ;;
  do_ret.

Definition do_conout : Act XIOS unit :=
  pc <- reg PC ;;
  base <- gets xios_base_ ;;
  d <- reg DE ;;
  let console := if base <=? Pair16.get_pair16 pc then Pair16.get_high d else 0 in
  b <- reg BC ;;
  let ch := Pair16.get_low b in
  con <- con_get console ;;
  when con (con_write_char console ch) ;;
  do_ret.

Definition do_list : Act XIOS unit := do_ret.
Definition do_punch : Act XIOS unit := do_ret.
Definition do_reader : Act XIOS unit := set_A 0x1A ;; do_ret.
Definition do_listst : Act XIOS unit := set_A 0xFF ;; do_ret.

Definition do_home : Act XIOS unit :=
  modify (set_current_track 0) ;; do_ret.

Definition do_seldsk : Act XIOS unit :=
  b <- reg BC ;;
  let disk := Pair16.get_low b in
  ok <- ds_select disk ;;
  if negb ok then
    set_HL 0x0000 ;; do_ret
  else
    modify (set_current_disk disk) ;;
    base <- gets xios_base_ ;;
    let dph_addr := u16 (base + 0x100 + disk * 16) in
    set_HL dph_addr ;;
    do_ret.

Definition do_settrk : Act XIOS unit :=
  b <- reg BC ;; modify (set_current_track (Pair16.get_pair16 b)) ;; do_ret.
Definition do_setsec : Act XIOS unit :=
  b <- reg BC ;; modify (set_current_sector (Pair16.get_pair16 b)) ;; do_ret.
Definition do_setdma : Act XIOS unit :=
  b <- reg BC ;; modify (set_dma_addr (Pair16.get_pair16 b)) ;; do_ret.

(** The latched track, sector and DMA address are handed to the disk
    engine, then the transfer is made. *)
Definition disk_setup : Act XIOS unit :=
  t <- gets current_track_ ;; ds_set_track t ;;
  s <- gets current_sector_ ;; ds_set_sector s ;;
  a <- gets dma_addr_ ;; ds_set_dma a.

Definition do_read : Act XIOS unit :=
  disk_setup ;; result <- ds_read ;; set_A result ;; do_ret.
Definition do_write : Act XIOS unit :=
  disk_setup ;; result <- ds_write ;; set_A result ;; do_ret.

Definition do_sectran : Act XIOS unit :=
  b <- reg BC ;; set_HL (Pair16.get_pair16 b) ;; do_ret.

Definition do_selmemory : Act XIOS unit :=
  b <- reg BC ;;
  let desc_addr := Pair16.get_pair16 b in
  bank <- mem_fetch (desc_addr + 3) ;;
  mem_select_bank bank ;;
  do_ret.

Definition do_polldevice : Act XIOS unit :=
  b <- reg BC ;;
  let device := Pair16.get_low b in
  result <-
    (if device =? 0 then ret 0xFF
     else if (1 <=? device) && (device <=? 4) then ret 0xFF
     else if (5 <=? device) && (device <=? 8) then
       ready <- con_ready (device - 5) ;;
       ret (if ready then 0xFF else 0x00)
     else ret 0x00) ;;
  set_A result ;;
  do_ret.

Definition do_startclock : Act XIOS unit :=
  modify (set_tick_enabled true) ;; do_ret.
Definition do_stopclock : Act XIOS unit :=
  modify (set_tick_enabled false) ;; do_ret.

Definition do_exitregion : Act XIOS unit :=
  p <- gets preempted_ ;;
  when (negb p) (modify (set_cpu (with_IFF 1 1))) ;;
  do_ret.

Definition do_maxconsole : Act XIOS unit := set_A MAX_CONSOLES ;; do_ret.
Definition do_systeminit : Act XIOS unit := con_init ;; do_ret.
Definition do_idle : Act XIOS unit := do_ret.
Definition do_boot : Act XIOS unit := do_ret.
Definition do_wboot : Act XIOS unit := do_ret.

(** ** Dispatch *)

(** The [switch] of [handle_call]: the handler of an offset, if any. *)
Definition handler_for (offset : Z) : option (Act XIOS unit) :=
  if offset =? XIOS_BOOT then Some do_boot
  else if offset =? XIOS_WBOOT then Some do_wboot
  else if offset =? XIOS_CONST then Some do_const
  else if offset =? XIOS_CONIN then Some do_conin
  else if offset =? XIOS_CONOUT then Some do_conout
  else if offset =? XIOS_LIST then Some do_list
  else if offset =? XIOS_PUNCH then Some do_punch
  else if offset =? XIOS_READER then Some do_reader
  else if offset =? XIOS_HOME then Some do_home
  else if offset =? XIOS_SELDSK then Some do_seldsk
  else if offset =? XIOS_SETTRK then Some do_settrk
  else if offset =? XIOS_SETSEC then Some do_setsec
  else if offset =? XIOS_SETDMA then Some do_setdma
  else if offset =? XIOS_READ then Some do_read
  else if offset =? XIOS_WRITE then Some do_write
  else if offset =? XIOS_LISTST then Some do_listst
  else if offset =? XIOS_SECTRAN then Some do_sectran
  else if offset =? XIOS_SELMEMORY then Some do_selmemory
  else if offset =? XIOS_POLLDEVICE then Some do_polldevice
  else if offset =? XIOS_STARTCLOCK then Some do_startclock
  else if offset =? XIOS_STOPCLOCK then Some do_stopclock
  else if offset =? XIOS_EXITREGION then Some do_exitregion
  else if offset =? XIOS_MAXCONSOLE then Some do_maxconsole
  else if offset =? XIOS_SYSTEMINIT then Some do_systeminit
  else if offset =? XIOS_IDLE then Some do_idle
  else None.

(** The table [handle_call] takes [pc] to belong to, and the offset it
    computes. *)
Definition is_ldrbios (x : XIOS) (pc : Z) : bool := pc <? xios_base_ x.
Definition call_offset (x : XIOS) (pc : Z) : Z :=
  if xios_base_ x <=? pc then u16 (pc - xios_base_ x)
  else u16 (pc - ldrbios_base_ x).

(** [XIOS::handle_call]. *)
Definition handle_call (pc : Z) : Act XIOS bool :=
  fun x =>
    if negb (is_xios_call x pc) then (false, x)
    else
      let offset := call_offset x pc in
      if is_ldrbios x pc && (offset =? XIOS_SELDSK) then (false, x)
      else
        match handler_for offset with
        | Some h => (true, exec h x)
        | None => (false, x)
        end.

(** ** The bootstrap call emulator *)

(** The loop of function 9: at most [n] more bytes are fetched, from
    [addr] on, each written to console 0 until a ['$'] (36) is fetched. *)
Fixpoint print_string (n : nat) (addr : Z) : Act XIOS unit :=
  match n with
  | O => ret tt
  | S n' =>
      ch <- mem_fetch addr ;;
      if ch =? 36 then ret tt
      else con_write_char 0 ch ;; print_string n' (u16 (addr + 1))
  end.

(** The [switch] of [do_bdos] on the function number. *)
Definition bdos_function (func de : Z) : Act XIOS unit :=
  if func =? 0 then ret tt
  else if func =? 1 then
    con <- con_get 0 ;;
    if con then
      c <- con_read_char 0 ;;
      let ch := u8 c in
      set_A ch ;; con_write_char 0 ch
    else set_A 0x1A
  else if func =? 2 then
    con <- con_get 0 ;;
    when con (con_write_char 0 (Z.land de 0xFF))
  else if func =? 6 then
    if Z.land de 0xFF =? 0xFF then
      ready <- con_ready 0 ;;
      if ready then c <- con_read_char 0 ;; set_A c else set_A 0
    else
      con <- con_get 0 ;;
      when con (con_write_char 0 (Z.land de 0xFF))
  else if func =? 9 then
    con <- con_get 0 ;;
    when con (print_string 1000 de)
  else if func =? 11 then
    ready <- con_ready 0 ;;
    set_A (if ready then 0xFF else 0x00)
  else if func =? 12 then
    set_HL 0x0021 ;; set_A 0x21
  else if func =? 13 then
    ds_select 0 ;; modify (set_current_disk 0)
  else if func =? 14 then
    modify (set_current_disk (Z.land de 0x0F)) ;;
    d <- gets current_disk_ ;;
    ds_select d ;;
    set_A 0
  else if func =? 15 then set_A 0xFF
  else if func =? 20 then set_A 1
  else if func =? 26 then modify (set_dma_addr de)
  else ret tt.

(** [XIOS::do_bdos].  The diagnostic line written to [std::cerr] for the
    first 50 calls is host output only; its counter is kept. *)
Definition do_bdos : Act XIOS unit :=
  b <- reg BC ;;
  let func := Pair16.get_low b in
  d <- reg DE ;;
  let de := Pair16.get_pair16 d in
  n <- gets call_count ;;
  when (n <? 50) (modify (set_call_count (n + 1))) ;;
  bdos_function func de ;;
  do_ret.

(** [XIOS::tick] and [XIOS::one_second_tick] set no flag yet. *)
Definition tick : Act XIOS unit :=
  t <- gets tick_enabled_ ;; when t (ret tt).
Definition one_second_tick : Act XIOS unit := ret tt.

End XIOS.

(** ** The console queue *)

(** [console_queue.h].  Every member function holds [mtx_] for the whole of
    its access to [queue_], so a call acts on the queue in one step.  A
    blocking call acts at the moment its wait ends; while the awaited
    condition is false and no deadline was given the call has no step
    ([None]). *)

Definition byte_val (b : Byte.byte) : Z := Z.of_N (Strings.Byte.to_N b).

(** Arithmetic on [size_t]. *)
Definition size_t (v : Z) : Z := v mod 2 ^ 64.

Section ConsoleQueue.

(** The template parameter [size_t CAPACITY]. *)
Variable CAPACITY : Z.

(** [std::queue<uint8_t> queue_], front first. *)
Record ConsoleQueue : Type := mkQueue { queue_ : list Byte.byte }.

Definition ConsoleQueue_new : ConsoleQueue := mkQueue [].

Definition size (q : ConsoleQueue) : Z := Z.of_nat (length (queue_ q)).
Definition push (ch : Byte.byte) (q : ConsoleQueue) : ConsoleQueue :=
  mkQueue (queue_ q ++ [ch]).

Definition available (q : ConsoleQueue) : Z := size q.
Definition space (q : ConsoleQueue) : Z := size_t (CAPACITY - size q).
Definition empty (q : ConsoleQueue) : bool :=
  match queue_ q with [] => true | _ :: _ => false end.
Definition full (q : ConsoleQueue) : bool := CAPACITY <=? size q.

Definition try_read (q : ConsoleQueue) : Z * ConsoleQueue :=
  match queue_ q with
  | [] => (-1, q)
  | ch :: rest => (byte_val ch, mkQueue rest)
  end.

Definition read (timeout_ms : Z) (q : ConsoleQueue) : option (Z * ConsoleQueue) :=
  match queue_ q with
  | ch :: rest => Some (byte_val ch, mkQueue rest)
  | [] => if timeout_ms =? 0 then None else Some (-1, q)
  end.

Definition try_write (ch : Byte.byte) (q : ConsoleQueue) : bool * ConsoleQueue :=
  if CAPACITY <=? size q then (false, q) else (true, push ch q).

Definition write (ch : Byte.byte) (timeout_ms : Z) (q : ConsoleQueue)
  : option (bool * ConsoleQueue) :=
  if size q <? CAPACITY then Some (true, push ch q)
  else if timeout_ms =? 0 then None else Some (false, q).

(** [write_some(data, len)], [data] being the [len] bytes offered. *)
Fixpoint write_some (data : list Byte.byte) (q : ConsoleQueue) : Z * ConsoleQueue :=
  match data with
  | [] => (0, q)
  | ch :: rest =>
      if size q <? CAPACITY then
        let (count, q') := write_some rest (push ch q) in (count + 1, q')
      else (0, q)
  end.

(** [read_some(data, max_len)]: the bytes stored into [data], whose number
    is the count returned. *)
Fixpoint read_some_loop (max_len : nat) (l : list Byte.byte)
  : list Byte.byte * list Byte.byte :=
  match max_len, l with
  | S n, ch :: rest => let (data, l') := read_some_loop n rest in (ch :: data, l')
  | _, _ => ([], l)
  end.
Definition read_some (max_len : Z) (q : ConsoleQueue) : list Byte.byte * ConsoleQueue :=
  let (data, l) := read_some_loop (Z.to_nat max_len) (queue_ q) in (data, mkQueue l).

(** [clear]: pops until empty. *)
Fixpoint clear_loop (l : list Byte.byte) : list Byte.byte :=
  match l with
  | [] => []
  | _ :: rest => clear_loop rest
  end.
Definition clear (q : ConsoleQueue) : ConsoleQueue := mkQueue (clear_loop (queue_ q)).

(** *** Sequences of calls *)

Inductive Call : Type :=
| CallTryRead
| CallRead (timeout_ms : Z)
| CallTryWrite (ch : Byte.byte)
| CallWrite (ch : Byte.byte) (timeout_ms : Z)
| CallReadSome (max_len : Z)
| CallWriteSome (data : list Byte.byte)
| CallClear.

Inductive Answer : Type :=
| AnsInt (v : Z)
| AnsBool (b : bool)
| AnsRead (data : list Byte.byte)
| AnsCount (n : Z)
| AnsVoid.

(** One call; [None] when the caller stays blocked. *)
Definition call (c : Call) (q : ConsoleQueue) : option (Answer * ConsoleQueue) :=
  match c with
  | CallTryRead => let (v, q') := try_read q in Some (AnsInt v, q')
  | CallRead t =>
      match read t q with Some (v, q') => Some (AnsInt v, q') | None => None end
  | CallTryWrite ch => let (b, q') := try_write ch q in Some (AnsBool b, q')
  | CallWrite ch t =>
      match write ch t q with Some (b, q') => Some (AnsBool b, q') | None => None end
  | CallReadSome n => let (d, q') := read_some n q in Some (AnsRead d, q')
  | CallWriteSome data => let (n, q') := write_some data q in Some (AnsCount n, q')
  | CallClear => Some (AnsVoid, clear q)
  end.

(** The bytes a call put into the queue and the values it took out of it,
    given its answer. *)
Definition enqueued (c : Call) (a : Answer) : list Z :=
  match c, a with
  | CallTryWrite ch, AnsBool true => [byte_val ch]
  | CallWrite ch _, AnsBool true => [byte_val ch]
  | CallWriteSome data, AnsCount n => map byte_val (firstn (Z.to_nat n) data)
  | _, _ => []
  end.
Definition dequeued (c : Call) (a : Answer) : list Z :=
  match c, a with
  | CallTryRead, AnsInt v => if v =? -1 then [] else [v]
  | CallRead _, AnsInt v => if v =? -1 then [] else [v]
  | CallReadSome _, AnsRead data => map byte_val data
  | _, _ => []
  end.

(** A history: the bytes enqueued so far, the values dequeued so far, and
    the queue.  A call that would block is left pending and changes
    nothing. *)
Record History : Type := mkHistory {
  h_in : list Z;
  h_out : list Z;
  h_queue : ConsoleQueue
}.

Definition step (h : History) (c : Call) : History :=
  match call c (h_queue h) with
  | Some (a, q') => mkHistory (h_in h ++ enqueued c a) (h_out h ++ dequeued c a) q'
  | None => h
  end.
Definition run (cs : list Call) (q : ConsoleQueue) : History :=
  fold_left step cs (mkHistory [] [] q).

Definition is_clear (c : Call) : bool :=
  match c with CallClear => true | _ => false end.

(** The values held by a queue, front first. *)
Definition contents (q : ConsoleQueue) : list Z := map byte_val (queue_ q).

(** The two sides of a history agree: what was taken out, followed by
    what is still held, is what the queue [q0] held at first followed by
    what was put in. *)
Definition fifo_from (q0 : ConsoleQueue) (h : History) : Prop :=
  h_out h ++ contents (h_queue h) = contents q0 ++ h_in h.

End ConsoleQueue.

(** ** Plain collaborators for concrete runs *)

Module Stub.

(** One flat bank of memory. *)
Record Memory : Type := mkMemory { bank : Z; cells : Z -> Z }.
#[global] Instance Memory_ops : BankedMemory Memory := {|
  fetch_mem m a := cells m a;
  select_bank m b := mkMemory b (cells m)
|}.

(** Drives [0 .. mounted-1] exist; transfers succeed and move nothing. *)
Record Disks : Type := mkDisks { mounted : Z; track : Z; sector : Z; dma : Z }.
#[global] Instance Disks_ops : DiskSystem Disks Memory := {|
  disk_select d n := ((0 <=? n) && (n <? mounted d), d);
  disk_set_track d v := mkDisks (mounted d) v (sector d) (dma d);
  disk_set_sector d v := mkDisks (mounted d) (track d) v (dma d);
  disk_set_dma d v := mkDisks (mounted d) (track d) (sector d) v;
  disk_read d m := (0, d, m);
  disk_write d m := (0, d, m)
|}.

(** Consoles [0 .. count-1] exist, never have input, and keep what is
    written to them. *)
Record Consoles : Type := mkConsoles { count : Z; output : list (Z * Z) }.
#[global] Instance Consoles_ops : ConsoleManager Consoles := {|
  console_get c i := (0 <=? i) && (i <? count c);
  const_status c i := (0, c);
  read_char c i := (0x1A, c);
  write_char c i ch := mkConsoles (count c) (output c ++ [(i, ch)]);
  console_init c := c
|}.

Definition regs0 : qkz80_regs := mkRegs 0 0 0 0 0xF000 0 0 0.

(** Memory holding ["HI$"] at 0x0200 and the return address 0x1234 at the
    top of the stack (0xF000). *)
Definition mem0 : Memory :=
  mkMemory 0 (fun a =>
    if a =? 0x0200 then 0x48 else if a =? 0x0201 then 0x49
    else if a =? 0x0202 then 0x24
    else if a =? 0xF000 then 0x34 else if a =? 0xF001 then 0x12 else 0).

(** Memory without any ['$']. *)
Definition mem_no_dollar : Memory := mkMemory 0 (fun _ => 0x41).

Definition xios0 : XIOS :=
  XIOS_new regs0 mem0 (mkDisks 4 0 0 0) (mkConsoles 1 []).

End Stub.

(** ** Vocabulary of the statements *)

Section Vocabulary.

Context {M D C : Type}.

(** [pc] lies in the 256-byte window that starts at [base]. *)
Definition in_window (base pc : Z) : Prop := base <= pc < base + 256.

(** [pc] is a slot of the table at [base] whose last slot is at offset
    [last]. *)
Definition is_slot (base last pc : Z) : Prop :=
  in_window base pc /\ (pc - base) mod 3 = 0 /\ pc - base <= last.

(** The trap condition in the design document's words: a slot of the full
    table, or a slot of the bootstrap table. *)
Definition is_trap_as_stated (x : @XIOS M D C) (pc : Z) : Prop :=
  is_slot (xios_base_ x) 0x48 pc \/ is_slot (ldrbios_base_ x) 0x30 pc.

(** The trap condition of the code: the full table's window is looked at
    first, and the bootstrap table only outside it. *)
Definition is_trap_first_match (x : @XIOS M D C) (pc : Z) : Prop :=
  is_slot (xios_base_ x) 0x48 pc \/
  (~ in_window (xios_base_ x) pc /\ is_slot (ldrbios_base_ x) 0x30 pc).

End Vocabulary.

(** ** Actions that return to the guest *)

Section Returning.

Context {M D C : Type}.
Context {MemOps : BankedMemory M}.

(** An action that leaves the stack pointer alone. *)
Definition keeps_sp {A : Type} (m : Act (@XIOS M D C) A) : Prop :=
  forall x, SP (cpu_ (exec m x)) = SP (cpu_ x).

(** An action whose last step is [do_ret], entered with the stack pointer
    the action started with. *)
Definition ends_in_ret (m : Act (@XIOS M D C) unit) : Prop :=
  forall x, exists y, SP (cpu_ y) = SP (cpu_ x) /\ exec m x = exec do_ret y.

End Returning.

(** ** Sequences of guest calls *)

Section GuestCalls.

Context {M D C : Type}.
Context {MemOps : BankedMemory M} {DiskOps : DiskSystem D M}
        {ConOps : ConsoleManager C}.

(** A call of one of the three latching entry points, with the value the
    guest passes in BC. *)
Inductive Setter : Type :=
| SetTrk (v : Z)
| SetSec (v : Z)
| SetDma (v : Z).

(** The guest loads BC and reaches the entry point. *)
Definition call_setter (s : Setter) : Act (@XIOS M D C) unit :=
  match s with
  | SetTrk v => modify (set_cpu (with_BC v)) ;; do_settrk
  | SetSec v => modify (set_cpu (with_BC v)) ;; do_setsec
  | SetDma v => modify (set_cpu (with_BC v)) ;; do_setdma
  end.

Definition call_setters (ss : list Setter) (x : @XIOS M D C) : @XIOS M D C :=
  fold_left (fun y s => exec (call_setter s) y) ss x.

(** The value of the last set-track (set-sector, set-dma) call of a
    sequence, if there is one. *)
Fixpoint last_track (ss : list Setter) : option Z :=
  match ss with
  | [] => None
  | s :: rest =>
      match last_track rest, s with
      | Some v, _ => Some v
      | None, SetTrk v => Some v
      | None, _ => None
      end
  end.
Fixpoint last_sector (ss : list Setter) : option Z :=
  match ss with
  | [] => None
  | s :: rest =>
      match last_sector rest, s with
      | Some v, _ => Some v
      | None, SetSec v => Some v
      | None, _ => None
      end
  end.
Fixpoint last_dma (ss : list Setter) : option Z :=
  match ss with
  | [] => None
  | s :: rest =>
      match last_dma rest, s with
      | Some v, _ => Some v
      | None, SetDma v => Some v
      | None, _ => None
      end
  end.

End GuestCalls.

(** The value of an option, or a default. *)
Definition or_else (o : option Z) (v : Z) : Z :=
  match o with Some w => w | None => v end.

(** ** Strings in guest memory *)

Section GuestStrings.

Context {M : Type} {MemOps : BankedMemory M}.

(** The [n] bytes of guest memory from [addr] on, the address a
    [uint16_t] that wraps when incremented. *)
Fixpoint guest_bytes (m : M) (addr : Z) (n : nat) : list Z :=
  match n with
  | O => []
  | S n' => u8 (fetch_mem m addr) :: guest_bytes m (u16 (addr + 1)) n'
  end.

End GuestStrings.

(** The first [n] addresses from [addr] on. *)
Fixpoint guest_addrs (addr : Z) (n : nat) : list Z :=
  match n with
  | O => []
  | S n' => addr :: guest_addrs (u16 (addr + 1)) n'
  end.

(** The bytes before the first ['$'] (36). *)
Fixpoint until_dollar (l : list Z) : list Z :=
  match l with
  | [] => []
  | b :: rest => if b =? 36 then [] else b :: until_dollar rest
  end.

(** Fetching [bytes] from [addr] on and writing them to console 0, up to
    and without the first ['$']. *)
Fixpoint print_events (bytes : list Z) (addr : Z) : list Event :=
  match bytes with
  | [] => []
  | b :: rest =>
      EvFetch addr ::
      (if b =? 36 then []
       else EvWriteChar 0 b :: print_events rest (u16 (addr + 1)))
  end.

Definition is_fetch (e : Event) : bool :=
  match e with EvFetch _ => true | _ => false end.
Definition is_write_char (e : Event) : bool :=
  match e with EvWriteChar _ _ => true | _ => false end.

(** The calls of a trace that went to the disk engine. *)
Definition is_disk_event (e : Event) : bool :=
  match e with
  | EvDiskSelect _ | EvSetTrack _ | EvSetSector _ | EvSetDma _
  | EvDiskRead | EvDiskWrite => true
  | _ => false
  end.
Definition disk_events (tr : list Event) : list Event := filter is_disk_event tr.

(** The console manager after the bytes [bs] were written to console 0,
    one [write_char] each, in order. *)
Definition written_to_console_0 {C : Type} {ConOps : ConsoleManager C}
  (bs : list Z) (c : C) : C :=
  fold_left (fun c' b => write_char c' 0 b) bs c.

(** The disk engine after it was handed a track, a sector and a DMA
    address, in this order. *)
Definition engine_given {D M : Type} {DiskOps : DiskSystem D M}
  (d : D) (t s a : Z) : D :=
  disk_set_dma (disk_set_sector (disk_set_track d t) s) a.

(** ** The entry points, slot by slot *)

Section EntryPoints.

Context {M D C : Type}.
Context {MemOps : BankedMemory M} {DiskOps : DiskSystem D M}
        {ConOps : ConsoleManager C}.
Variable MAX_CONSOLES : Z.

(** The slots in the order of the jump table of [xios.asm], each with the
    member function of [XIOS] that bears its name. *)
Definition entry_points : list (Z * Act (@XIOS M D C) unit) :=
  [ (XIOS_BOOT, do_boot); (XIOS_WBOOT, do_wboot); (XIOS_CONST, do_const);
    (XIOS_CONIN, do_conin); (XIOS_CONOUT, do_conout); (XIOS_LIST, do_list);
    (XIOS_PUNCH, do_punch); (XIOS_READER, do_reader); (XIOS_HOME, do_home);
    (XIOS_SELDSK, do_seldsk); (XIOS_SETTRK, do_settrk);
    (XIOS_SETSEC, do_setsec); (XIOS_SETDMA, do_setdma); (XIOS_READ, do_read);
    (XIOS_WRITE, do_write); (XIOS_LISTST, do_listst);
    (XIOS_SECTRAN, do_sectran); (XIOS_SELMEMORY, do_selmemory);
    (XIOS_POLLDEVICE, do_polldevice); (XIOS_STARTCLOCK, do_startclock);
    (XIOS_STOPCLOCK, do_stopclock); (XIOS_EXITREGION, do_exitregion);
    (XIOS_MAXCONSOLE, do_maxconsole MAX_CONSOLES);
    (XIOS_SYSTEMINIT, do_systeminit); (XIOS_IDLE, do_idle) ].

End EntryPoints.

(** ** The dispatcher's configuration *)

Section Configuration.

Context {M D C : Type}.

(** Two states place the tables alike and agree on [preempted_]. *)
Definition same_config (x y : @XIOS M D C) : Prop :=
  xios_base_ y = xios_base_ x /\ ldrbios_base_ y = ldrbios_base_ x /\
  bdos_stub_ y = bdos_stub_ x /\ preempted_ y = preempted_ x.

End Configuration.

(** ** Calls that write the disk latches *)

Section LatchCalls.

Context {M D C : Type}.
Context {MemOps : BankedMemory M} {DiskOps : DiskSystem D M}
        {ConOps : ConsoleManager C}.

(** The calls that write the latched track, sector or DMA address: home,
    the three set entry points (value in BC), and function 26 of
    [do_bdos] (C = 26, value in DE). *)
Inductive LatchCall : Type :=
| LHome
| LSetTrk (v : Z)
| LSetSec (v : Z)
| LSetDma (v : Z)
| LBdosSetDma (v : Z).

Definition call_latch (c : LatchCall) : Act (@XIOS M D C) unit :=
  match c with
  | LHome => do_home
  | LSetTrk v => modify (set_cpu (with_BC v)) ;; do_settrk
  | LSetSec v => modify (set_cpu (with_BC v)) ;; do_setsec
  | LSetDma v => modify (set_cpu (with_BC v)) ;; do_setdma
  | LBdosSetDma v =>
      modify (set_cpu (fun r => with_DE v (with_BC 26 r))) ;; do_bdos
  end.

Definition latch_calls (cs : list LatchCall) (x : @XIOS M D C) : @XIOS M D C :=
  fold_left (fun y c => exec (call_latch c) y) cs x.

(** [do_bdos] called [n] times in a row, the guest setting the registers
    before each call. *)
Definition bdos_calls (rs : list qkz80_regs) (x : @XIOS M D C) : @XIOS M D C :=
  fold_left (fun y r => exec do_bdos (set_cpu (fun _ => r) y)) rs x.

End LatchCalls.

(** Three registers (track, sector, DMA address), each taking the last
    value written to it; home writes track 0. *)
Definition latch_write (tsd : Z * Z * Z) (c : LatchCall) : Z * Z * Z :=
  let '(t, s, d) := tsd in
  match c with
  | LHome => (0, s, d)
  | LSetTrk v => (v, s, d)
  | LSetSec v => (t, v, d)
  | LSetDma v => (t, s, v)
  | LBdosSetDma v => (t, s, v)
  end.
Definition latch_writes (cs : list LatchCall) (tsd : Z * Z * Z) : Z * Z * Z :=
  fold_left latch_write cs tsd.

(** The calls of a trace made on a console, through the pointer
    [ConsoleManager::get] returned. *)
Definition is_console_call (e : Event) : bool :=
  match e with
  | EvConstStatus _ | EvReadChar _ | EvWriteChar _ _ => true
  | _ => false
  end.
Definition console_calls (tr : list Event) : list Event :=
  filter is_console_call tr.

(** ** Repeated single transfers on the console queue *)

Section QueueTransfers.

Variable CAPACITY : Z.

(** [try_write] of each byte in turn, whatever each call answers. *)
Definition try_write_all (data : list Byte.byte) (q : ConsoleQueue) : ConsoleQueue :=
  fold_left (fun q' ch => snd (try_write CAPACITY ch q')) data q.

(** [n] calls of [try_read]; the answers other than -1, in order. *)
Fixpoint try_read_n (n : nat) (q : ConsoleQueue) : list Z * ConsoleQueue :=
  match n with
  | O => ([], q)
  | S n' =>
      let (v, q') := try_read q in
      let (vs, q'') := try_read_n n' q' in
      (if v =? -1 then vs else v :: vs, q'')
  end.

End QueueTransfers.

(** ** mkspr: the SPR image *)

(** [v[i] = b] on a vector long enough. *)
Fixpoint store (i : nat) (b : Z) (v : list Z) : list Z :=
  match v, i with
  | [], _ => []
  | _ :: rest, O => b :: rest
  | a :: rest, S i' => a :: store i' b rest
  end.

(** [n] times [push_back(0)]. *)
Fixpoint push_zeros (n : nat) (v : list Z) : list Z :=
  match n with
  | O => v
  | S n' => push_zeros n' (v ++ [0])
  end.

(** [while (!stop(v)) v.push_back(0)], for at most [fuel] rounds. *)
Fixpoint pad_until (fuel : nat) (stop : list Z -> bool) (v : list Z)
  : option (list Z) :=
  if stop v then Some v
  else match fuel with
       | O => None
       | S fuel' => pad_until fuel' stop (v ++ [0])
       end.

Definition vsize (v : list Z) : Z := Z.of_nat (length v).

(** The 128-byte header: program size at bytes 1 and 2, buffer size at
    bytes 4 and 5, low byte first. *)
Definition spr_header (code_size bufsize : Z) : list Z :=
  store 5 (Z.land (Z.shiftr bufsize 8) 0xFF)
    (store 4 (Z.land bufsize 0xFF)
       (store 2 (Z.land (Z.shiftr code_size 8) 0xFF)
          (store 1 (Z.land code_size 0xFF) (repeat 0 128)))).

(** The image [main] of [mkspr.cpp] builds from the bytes of the input
    file and the buffer size (a [uint16_t]), between reading the one and
    writing the other; [None] when a padding loop has not ended after
    [fuel] rounds. *)
Definition spr_image (fuel : nat) (code : list Z) (bufsize : Z) : option (list Z) :=
  let spr := spr_header (vsize code) bufsize in
  let spr := push_zeros 128 spr in
  match pad_until fuel (fun v => negb (vsize v <? 256)) spr with
  | None => None
  | Some spr =>
      let spr := spr ++ code in
      pad_until fuel (fun v => vsize v mod 128 =? 0) spr
  end.

(** The number of zero bytes that bring [code_size] to a multiple of
    128. *)
Definition spr_padding (code_size : Z) : nat :=
  Z.to_nat ((128 - code_size mod 128) mod 128).

(** A 16-bit field of the header, low byte first at [i]. *)
Definition spr_field (i : nat) (spr : list Z) : Z :=
  nth i spr 0 + 256 * nth (S i) spr 0.

(** * Properties *)

(** ** Arithmetic of bytes and words *)

Lemma u8_range v : 0 <= u8 v < 256.
Proof. unfold u8. apply Z.mod_pos_bound. lia. Qed.

Lemma u16_range v : 0 <= u16 v < 65536.
Proof. unfold u16. apply Z.mod_pos_bound. lia. Qed.

Lemma u16_small v : 0 <= v < 65536 -> u16 v = v.
Proof. intros H. unfold u16. apply Z.mod_small. exact H. Qed.

Lemma u8_small v : 0 <= v < 256 -> u8 v = v.
Proof. intros H. unfold u8. apply Z.mod_small. exact H. Qed.

Lemma get_low_u8 r : Pair16.get_low r = u8 r.
Proof.
  unfold Pair16.get_low, u8.
  change 0xFF with (Z.ones 8). rewrite Z.land_ones by lia. reflexivity.
Qed.

Lemma get_low_range r : 0 <= Pair16.get_low r < 256.
Proof. rewrite get_low_u8. apply u8_range. Qed.

Lemma land_0F_range v : 0 <= Z.land v 0x0F < 16.
Proof.
  change 0x0F with (Z.ones 4). rewrite Z.land_ones by lia.
  apply Z.mod_pos_bound. lia.
Qed.

(** A word assembled from two bytes. *)
Lemma land_shiftl8_byte hi lo : 0 <= lo < 256 -> Z.land (Z.shiftl hi 8) lo = 0.
Proof.
  intros Hlo. apply Z.bits_inj'. intros n Hn.
  rewrite Z.land_spec, Z.bits_0.
  destruct (Z.ltb_spec n 8) as [Hlt | Hge].
  - rewrite Z.shiftl_spec_low by lia. reflexivity.
  - replace (Z.testbit lo n) with false; [ apply andb_false_r | ].
    symmetry. destruct (Z.eq_dec lo 0) as [-> | Hnz]; [ apply Z.bits_0 | ].
    apply Z.bits_above_log2; [ lia | ].
    apply Z.lt_le_trans with 8; [ | lia ].
    apply Z.log2_lt_pow2; [ lia | change (2 ^ 8) with 256; lia ].
Qed.

Lemma lor_shiftl8 hi lo :
  0 <= lo < 256 -> Z.lor (Z.shiftl hi 8) lo = 256 * hi + lo.
Proof.
  intros Hlo. pose proof (land_shiftl8_byte hi lo Hlo) as Hdisj.
  rewrite <- Z.lxor_lor by exact Hdisj.
  rewrite <- Z.add_nocarry_lxor by exact Hdisj.
  rewrite Z.shiftl_mul_pow2 by lia. change (2 ^ 8) with 256. lia.
Qed.

Lemma get_high_set_high r v : Pair16.get_high (Pair16.set_high r v) = u8 v.
Proof.
  unfold Pair16.get_high, Pair16.set_high.
  pose proof (u8_range v). pose proof (get_low_range r).
  rewrite lor_shiftl8 by lia.
  rewrite Z.shiftr_div_pow2 by lia. change (2 ^ 8) with 256.
  replace ((256 * u8 v + Pair16.get_low r) / 256) with (u8 v)
    by (apply Z.div_unique with (Pair16.get_low r); lia).
  fold (Pair16.get_low (u8 v)). rewrite get_low_u8. apply u8_small. lia.
Qed.

Lemma get_low_set_high r v :
  Pair16.get_low (Pair16.set_high r v) = Pair16.get_low r.
Proof.
  unfold Pair16.set_high.
  pose proof (u8_range v). pose proof (get_low_range r).
  rewrite lor_shiftl8 by lia.
  rewrite !get_low_u8. unfold u8 at 1.
  rewrite Z.add_comm, Z.mul_comm, Z.mod_add by lia.
  apply Z.mod_small. rewrite <- get_low_u8. lia.
Qed.

Lemma set_high_range r v : 0 <= Pair16.set_high r v < 65536.
Proof.
  unfold Pair16.set_high.
  pose proof (u8_range v). pose proof (get_low_range r).
  rewrite lor_shiftl8 by lia. lia.
Qed.

(** ** Trap classification *)

Section TrapProperties.

Context {M D C : Type}.
Implicit Type x : @XIOS M D C.

Lemma is_slot_test base last pc :
  in_window base pc ->
  ((u16 (pc - base) <=? last) && (u16 (pc - base) mod 3 =? 0) = true
   <-> is_slot base last pc).
Proof.
  intros Hw. unfold is_slot, in_window in *.
  rewrite u16_small by lia.
  rewrite andb_true_iff, Z.leb_le, Z.eqb_eq. tauto.
Qed.

Lemma in_window_test base pc :
  (base <=? pc) && (pc <? base + 0x100) = true <-> in_window base pc.
Proof.
  unfold in_window. rewrite andb_true_iff, Z.leb_le, Z.ltb_lt.
  change 0x100 with 256. tauto.
Qed.

(** [is_xios_call] answers the first window that contains [pc]. *)
Lemma is_xios_call_first_match x pc :
  is_xios_call x pc = true <-> is_trap_first_match x pc.
Proof.
  unfold is_xios_call, is_trap_first_match.
  destruct ((xios_base_ x <=? pc) && (pc <? xios_base_ x + 0x100)) eqn:Hfull.
  - apply in_window_test in Hfull.
    rewrite (is_slot_test _ XIOS_IDLE _ Hfull). change XIOS_IDLE with 0x48.
    tauto.
  - assert (Hout : ~ in_window (xios_base_ x) pc)
      by (rewrite <- in_window_test, Hfull; discriminate).
    assert (Hnot : ~ is_slot (xios_base_ x) 0x48 pc)
      by (unfold is_slot; tauto).
    destruct ((ldrbios_base_ x <=? pc) && (pc <? ldrbios_base_ x + 0x100)) eqn:Hboot.
    + apply in_window_test in Hboot.
      rewrite (is_slot_test _ XIOS_SECTRAN _ Hboot).
      change XIOS_SECTRAN with 0x30. tauto.
    + assert (Hout' : ~ in_window (ldrbios_base_ x) pc)
        by (rewrite <- in_window_test, Hboot; discriminate).
      unfold is_slot. split; [ discriminate | tauto ].
Qed.

(** When no address lies in both windows, the first match is the only
    match. *)
Lemma first_match_as_stated x pc :
  (in_window (xios_base_ x) pc -> ~ in_window (ldrbios_base_ x) pc) ->
  (is_trap_first_match x pc <-> is_trap_as_stated x pc).
Proof.
  unfold is_trap_first_match, is_trap_as_stated, is_slot. intros Hdisj.
  split; intros [H | H]; tauto.
Qed.

End TrapProperties.

(** C1, as the code has it: for every program counter [pc] and every
    placement of the two tables, [is_xios_call] answers true if and only if
    [pc] is a slot of the full table (offset a multiple of 3, at most 0x48,
    inside the window at [xios_base_]), or [pc] lies outside the full
    table's window and is a slot of the bootstrap table (offset a multiple
    of 3, at most 0x30, inside the window at [ldrbios_base_]).  Where the
    two windows share no address this is the condition of the design
    document, and so it is with the addresses the constructor sets, for
    which the bootstrap loader's own system-call address is no trap. *)
Theorem is_xios_call_characterised {M D C : Type} :
  (forall (x : @XIOS M D C) pc,
      is_xios_call x pc = true <-> is_trap_first_match x pc) /\
  (forall (x : @XIOS M D C),
      (forall a, in_window (xios_base_ x) a -> ~ in_window (ldrbios_base_ x) a) ->
      forall pc, is_xios_call x pc = true <-> is_trap_as_stated x pc) /\
  (forall cpu (mem : M) (d : D) (c : C),
      let x := XIOS_new cpu mem d c in
      (forall pc, is_xios_call x pc = true <-> is_trap_as_stated x pc) /\
      is_xios_call x (bdos_stub_ x) = false).
Proof.
  split; [ | split ].
  - intros x pc. apply is_xios_call_first_match.
  - intros x Hdisj pc.
    rewrite is_xios_call_first_match. apply first_match_as_stated. apply Hdisj.
  - intros cpu mem d c x. split; [ | reflexivity ].
    intros pc. rewrite is_xios_call_first_match. apply first_match_as_stated.
    unfold in_window. simpl. lia.
Qed.

(** C1, as written, fails where the windows overlap: with the full table
    at 0x1701 and the bootstrap table at its default 0x1700, the address
    0x1703 is the bootstrap table's slot 3, yet it lies in the full
    table's window at offset 2 and is refused there. *)
Lemma is_trap_as_stated_overlap :
  let x := set_xios_base 0x1701 Stub.xios0 in
  is_trap_as_stated x 0x1703 /\ is_xios_call x 0x1703 = false.
Proof.
  split; [ | reflexivity ].
  right. unfold is_slot, in_window. simpl.
  split; [ lia | split; [ reflexivity | lia ] ].
Qed.

(** ** Running actions *)

(** Projections through the field updates. *)
Ltac proj :=
  cbn [cpu_ mem_ xios_base_ ldrbios_base_ bdos_stub_ current_disk_
       current_track_ current_sector_ dma_addr_ tick_enabled_ preempted_
       disks_ consoles_ call_count trace AF BC DE HL SP PC IFF1 IFF2
       set_cpu set_mem set_xios_base set_current_disk set_current_track
       set_current_sector set_dma_addr set_tick_enabled set_preempted
       set_disks set_consoles set_call_count log
       with_AF with_BC with_DE with_HL with_SP with_PC with_IFF].

Section RunningActions.

Context {M D C : Type}.
Context {MemOps : BankedMemory M} {DiskOps : DiskSystem D M}
        {ConOps : ConsoleManager C}.
Implicit Type x : @XIOS M D C.
Local Abbreviation State := (@XIOS M D C).

Lemma exec_bind {A B : Type} (m : Act State A) (k : A -> Act State B) x :
  exec (bind m k) x = exec (k (fst (m x))) (exec m x).
Proof. unfold exec, bind. destruct (m x). reflexivity. Qed.

Lemma fst_bind {A B : Type} (m : Act State A) (k : A -> Act State B) x :
  fst (bind m k x) = fst (k (fst (m x)) (exec m x)).
Proof. unfold exec, bind. destruct (m x). reflexivity. Qed.

Lemma exec_ret {A : Type} (a : A) x : exec (ret a) x = x.
Proof. reflexivity. Qed.
Lemma fst_ret {A : Type} (a : A) x : fst (ret a x) = a.
Proof. reflexivity. Qed.
Lemma exec_gets {A : Type} (f : State -> A) x : exec (gets f) x = x.
Proof. reflexivity. Qed.
Lemma fst_gets {A : Type} (f : State -> A) x : fst (gets f x) = f x.
Proof. reflexivity. Qed.
Lemma exec_modify (f : State -> State) x : exec (modify f) x = f x.
Proof. reflexivity. Qed.
Lemma exec_when b (m : Act State unit) x :
  exec (when b m) x = if b then exec m x else x.
Proof. destruct b; reflexivity. Qed.

Lemma exec_mem_fetch a x : exec (mem_fetch a) x = log (EvFetch a) x.
Proof. reflexivity. Qed.
Lemma fst_mem_fetch a x : fst (mem_fetch a x) = u8 (fetch_mem (mem_ x) a).
Proof. reflexivity. Qed.
Lemma exec_mem_select_bank b x :
  exec (mem_select_bank b) x =
  log (EvSelectBank b) (set_mem (select_bank (mem_ x) b) x).
Proof. reflexivity. Qed.

Lemma exec_ds_select n x :
  exec (ds_select n) x =
  log (EvDiskSelect n) (set_disks (snd (disk_select (disks_ x) n)) x).
Proof. unfold exec, ds_select. destruct (disk_select _ _). reflexivity. Qed.
Lemma fst_ds_select n x : fst (ds_select n x) = fst (disk_select (disks_ x) n).
Proof. unfold ds_select. destruct (disk_select _ _). reflexivity. Qed.
Lemma exec_ds_set_track v x :
  exec (ds_set_track v) x =
  log (EvSetTrack v) (set_disks (disk_set_track (disks_ x) v) x).
Proof. reflexivity. Qed.
Lemma exec_ds_set_sector v x :
  exec (ds_set_sector v) x =
  log (EvSetSector v) (set_disks (disk_set_sector (disks_ x) v) x).
Proof. reflexivity. Qed.
Lemma exec_ds_set_dma v x :
  exec (ds_set_dma v) x =
  log (EvSetDma v) (set_disks (disk_set_dma (disks_ x) v) x).
Proof. reflexivity. Qed.
Lemma exec_ds_read x :
  exec ds_read x =
  log EvDiskRead
    (set_mem (snd (disk_read (disks_ x) (mem_ x)))
       (set_disks (snd (fst (disk_read (disks_ x) (mem_ x)))) x)).
Proof.
  unfold exec, ds_read. destruct (disk_read _ _) as [[r d] m]. reflexivity.
Qed.
Lemma fst_ds_read x :
  fst (ds_read x) = fst (fst (disk_read (disks_ x) (mem_ x))).
Proof. unfold ds_read. destruct (disk_read _ _) as [[r d] m]. reflexivity. Qed.

Lemma exec_con_write_char i ch x :
  exec (con_write_char i ch) x =
  log (EvWriteChar i ch) (set_consoles (write_char (consoles_ x) i ch) x).
Proof. reflexivity. Qed.

End RunningActions.

Create Rewrite HintDb act.
#[global] Hint Rewrite @exec_bind @fst_bind @exec_ret @fst_ret @exec_gets
  @fst_gets @exec_modify @exec_mem_fetch @fst_mem_fetch @exec_mem_select_bank
  @exec_ds_select @fst_ds_select @exec_ds_set_track @exec_ds_set_sector
  @exec_ds_set_dma @exec_ds_read @fst_ds_read @exec_con_write_char : act.

(** ** The synthetic return *)

Section ReturnProperties.

Context {M D C : Type}.
Context {MemOps : BankedMemory M} {DiskOps : DiskSystem D M}
        {ConOps : ConsoleManager C}.
Variable MAX_CONSOLES : Z.
Implicit Type x y : @XIOS M D C.
Local Abbreviation State := (@XIOS M D C).

(** What [do_ret] does to a state: two fetches, then SP and PC. *)
Lemma do_ret_exec x :
  let sp := SP (cpu_ x) in
  let lo := u8 (fetch_mem (mem_ x) sp) in
  let hi := u8 (fetch_mem (mem_ x) (sp + 1)) in
  exec do_ret x =
  set_cpu (with_PC (u16 (Z.lor (Z.shiftl hi 8) lo)))
    (set_cpu (with_SP (u16 (sp + 2)))
       (log (EvFetch (sp + 1)) (log (EvFetch sp) x))).
Proof. reflexivity. Qed.

Lemma do_ret_PC x :
  PC (cpu_ (exec do_ret x)) =
  256 * u8 (fetch_mem (mem_ x) (SP (cpu_ x) + 1)) + u8 (fetch_mem (mem_ x) (SP (cpu_ x))).
Proof.
  change (PC (cpu_ (exec do_ret x))) with
    (u16 (Z.lor (Z.shiftl (u8 (fetch_mem (mem_ x) (SP (cpu_ x) + 1))) 8)
            (u8 (fetch_mem (mem_ x) (SP (cpu_ x)))))).
  pose proof (u8_range (fetch_mem (mem_ x) (SP (cpu_ x)))).
  pose proof (u8_range (fetch_mem (mem_ x) (SP (cpu_ x) + 1))).
  rewrite lor_shiftl8 by lia. apply u16_small. lia.
Qed.

Lemma do_ret_SP x : SP (cpu_ (exec do_ret x)) = u16 (SP (cpu_ x) + 2).
Proof. reflexivity. Qed.

Lemma do_ret_trace x :
  trace (exec do_ret x) =
  trace x ++ [EvFetch (SP (cpu_ x)); EvFetch (SP (cpu_ x) + 1)].
Proof.
  change (trace (exec do_ret x)) with
    ((trace x ++ [EvFetch (SP (cpu_ x))]) ++ [EvFetch (SP (cpu_ x) + 1)]).
  rewrite <- app_assoc. reflexivity.
Qed.

Lemma keeps_ret {A : Type} (a : A) : keeps_sp (ret a : Act State A).
Proof. intros x. reflexivity. Qed.

Lemma keeps_bind {A B : Type} (m : Act State A) (k : A -> Act State B) :
  keeps_sp m -> (forall a, keeps_sp (k a)) -> keeps_sp (bind m k).
Proof. intros Hm Hk x. rewrite exec_bind, Hk, Hm. reflexivity. Qed.

Lemma keeps_when b (m : Act State unit) : keeps_sp m -> keeps_sp (when b m).
Proof. intros Hm. destruct b; [ exact Hm | apply keeps_ret ]. Qed.

Lemma keeps_gets {A : Type} (f : State -> A) : keeps_sp (gets f).
Proof. intros x. reflexivity. Qed.

Lemma keeps_modify (f : State -> State) :
  (forall x, SP (cpu_ (f x)) = SP (cpu_ x)) -> keeps_sp (modify f).
Proof. intros Hf x. apply Hf. Qed.

Ltac call_keeps :=
  intros x; unfold exec;
  repeat match goal with
         | |- context [let (_, _) := ?e in _] => destruct e
         end;
  reflexivity.

Lemma keeps_mem_fetch a : keeps_sp (mem_fetch a : Act State _).
Proof. unfold mem_fetch. call_keeps. Qed.
Lemma keeps_mem_select_bank b : keeps_sp (mem_select_bank b : Act State _).
Proof. unfold mem_select_bank. call_keeps. Qed.
Lemma keeps_ds_select n : keeps_sp (ds_select n : Act State _).
Proof. unfold ds_select. call_keeps. Qed.
Lemma keeps_ds_set_track v : keeps_sp (ds_set_track v : Act State _).
Proof. unfold ds_set_track. call_keeps. Qed.
Lemma keeps_ds_set_sector v : keeps_sp (ds_set_sector v : Act State _).
Proof. unfold ds_set_sector. call_keeps. Qed.
Lemma keeps_ds_set_dma v : keeps_sp (ds_set_dma v : Act State _).
Proof. unfold ds_set_dma. call_keeps. Qed.
Lemma keeps_ds_read : keeps_sp (ds_read : Act State _).
Proof. unfold ds_read. call_keeps. Qed.
Lemma keeps_ds_write : keeps_sp (ds_write : Act State _).
Proof. unfold ds_write. call_keeps. Qed.
Lemma keeps_con_const_status i : keeps_sp (con_const_status i : Act State _).
Proof. unfold con_const_status. call_keeps. Qed.
Lemma keeps_con_read_char i : keeps_sp (con_read_char i : Act State _).
Proof. unfold con_read_char. call_keeps. Qed.
Lemma keeps_con_write_char i ch : keeps_sp (con_write_char i ch : Act State _).
Proof. unfold con_write_char. call_keeps. Qed.
Lemma keeps_con_init : keeps_sp (con_init : Act State _).
Proof. unfold con_init. call_keeps. Qed.

Ltac keeps :=
  repeat first
    [ apply keeps_ret | apply keeps_gets
    | apply keeps_mem_fetch | apply keeps_mem_select_bank
    | apply keeps_ds_select | apply keeps_ds_set_track
    | apply keeps_ds_set_sector | apply keeps_ds_set_dma
    | apply keeps_ds_read | apply keeps_ds_write
    | apply keeps_con_const_status | apply keeps_con_read_char
    | apply keeps_con_write_char | apply keeps_con_init
    | apply keeps_modify; intros; reflexivity
    | apply keeps_when
    | apply keeps_bind; [ | intros ]
    | match goal with
      | |- keeps_sp (if ?b then _ else _) => destruct b
      end ].

Lemma keeps_con_ready i : keeps_sp (con_ready i : Act State _).
Proof. unfold con_ready, con_get. keeps. Qed.

Lemma keeps_disk_setup : keeps_sp (disk_setup : Act State _).
Proof. unfold disk_setup. keeps. Qed.

Lemma ends_do_ret : ends_in_ret (do_ret : Act State unit).
Proof. intros x. exists x. split; reflexivity. Qed.

Lemma ends_bind {A : Type} (m : Act State A) (k : A -> Act State unit) :
  keeps_sp m -> (forall a, ends_in_ret (k a)) -> ends_in_ret (bind m k).
Proof.
  intros Hm Hk x. rewrite exec_bind.
  destruct (Hk (fst (m x)) (exec m x)) as [y [Hsp Hy]].
  exists y. split; [ rewrite Hsp; apply Hm | exact Hy ].
Qed.

Ltac ends :=
  repeat first
    [ apply ends_do_ret
    | apply ends_bind; [ unfold reg, set_A, set_HL, con_get; keeps | intros ]
    | match goal with
      | |- ends_in_ret (if ?b then _ else _) => destruct b
      end ].

(** Every handler of the dispatch table ends in [do_ret]. *)
Lemma handlers_end_in_ret offset h :
  handler_for MAX_CONSOLES offset = Some h -> ends_in_ret h.
Proof.
  unfold handler_for.
  repeat match goal with
         | |- (if ?b then _ else _) = Some _ -> _ => destruct b
         end;
    intros Hh; inversion Hh; subst h; clear Hh;
    unfold do_boot, do_wboot, do_const, do_conin, do_conout, do_list, do_punch,
      do_reader, do_home, do_seldsk, do_settrk, do_setsec, do_setdma, do_read,
      do_write, do_listst, do_sectran, do_selmemory, do_polldevice,
      do_startclock, do_stopclock, do_exitregion, do_maxconsole,
      do_systeminit, do_idle;
    ends;
    try apply keeps_con_ready; try apply keeps_disk_setup.
Qed.

(** C2: whenever [handle_call] answers true, the program counter is the
    little-endian word of guest memory at the stack pointer the call was
    entered with (low byte at SP, high byte at SP+1; memory as the handler
    left it, these two fetches being the last thing done), and the stack
    pointer is that stack pointer plus 2, as a 16-bit register. *)
Theorem handle_call_synthetic_return x pc :
  fst (handle_call MAX_CONSOLES pc x) = true ->
  let x' := snd (handle_call MAX_CONSOLES pc x) in
  let sp := SP (cpu_ x) in
  PC (cpu_ x') =
    256 * u8 (fetch_mem (mem_ x') (sp + 1)) + u8 (fetch_mem (mem_ x') sp) /\
  SP (cpu_ x') = u16 (sp + 2) /\
  exists tr, trace x' = tr ++ [EvFetch sp; EvFetch (sp + 1)].
Proof.
  unfold handle_call.
  destruct (negb (is_xios_call x pc)); [ discriminate | ].
  destruct (is_ldrbios x pc && (call_offset x pc =? XIOS_SELDSK));
    [ discriminate | ].
  destruct (handler_for MAX_CONSOLES (call_offset x pc)) as [h | ] eqn:Hh;
    [ | discriminate ].
  intros _. simpl.
  destruct (handlers_end_in_ret _ _ Hh x) as [y [Hsp Hy]].
  rewrite Hy, <- Hsp. change (mem_ (exec do_ret y)) with (mem_ y).
  split; [ | split ].
  - apply do_ret_PC.
  - apply do_ret_SP.
  - exists (trace y). apply do_ret_trace.
Qed.

(** The offset [handle_call] computes for a bootstrap slot below the full
    table is the slot's offset. *)
Lemma bootstrap_offset x pc :
  is_xios_call x pc = true -> pc < xios_base_ x ->
  call_offset x pc = pc - ldrbios_base_ x /\ is_slot (ldrbios_base_ x) 0x30 pc.
Proof.
  intros Htrap Hlt. apply is_xios_call_first_match in Htrap.
  unfold call_offset. destruct (Z.leb_spec (xios_base_ x) pc); [ lia | ].
  destruct Htrap as [[Hw _] | [_ Hs]]; [ unfold in_window in Hw; lia | ].
  split; [ | exact Hs ].
  destruct Hs as [Hw _]. unfold in_window in Hw. apply u16_small. lia.
Qed.

(** Every slot of the full table has a handler, and so has every slot of
    a bootstrap table that lies below the full table: an offset without
    handler only arises from a bootstrap window at or above the full
    table's, whose offset [handle_call] takes from [xios_base_]. *)
Lemma slots_have_handlers x pc :
  is_xios_call x pc = true ->
  pc < xios_base_ x + 256 ->
  handler_for MAX_CONSOLES (call_offset x pc) <> None.
Proof.
  intros Htrap Hlt.
  assert (Hoff : 0 <= call_offset x pc <= 0x48 /\ call_offset x pc mod 3 = 0).
  { destruct (Z.lt_ge_cases pc (xios_base_ x)) as [Hb | Hb].
    - destruct (bootstrap_offset x pc Htrap Hb) as [-> [Hw [Hm Hle]]].
      unfold in_window in Hw. lia.
    - apply is_xios_call_first_match in Htrap.
      unfold call_offset. destruct (Z.leb_spec (xios_base_ x) pc); [ | lia ].
      destruct Htrap as [[Hw [Hm Hle]] | [Hout _]];
        [ | unfold in_window in Hout; lia ].
      unfold in_window in Hw. rewrite u16_small by lia. lia. }
  destruct Hoff as [Hr Hm].
  assert (Hk : exists k, call_offset x pc = 3 * k /\ 0 <= k <= 24).
  { exists (call_offset x pc / 3).
    pose proof (Z.div_mod (call_offset x pc) 3 ltac:(lia)). lia. }
  destruct Hk as [k [-> Hk]].
  assert (Hcases : k = 0 \/ k = 1 \/ k = 2 \/ k = 3 \/ k = 4 \/ k = 5 \/ k = 6 \/
                   k = 7 \/ k = 8 \/ k = 9 \/ k = 10 \/ k = 11 \/ k = 12 \/
                   k = 13 \/ k = 14 \/ k = 15 \/ k = 16 \/ k = 17 \/ k = 18 \/
                   k = 19 \/ k = 20 \/ k = 21 \/ k = 22 \/ k = 23 \/ k = 24) by lia.
  repeat (destruct Hcases as [-> | Hcases]; [ discriminate | ]).
  subst k. discriminate.
Qed.

End ReturnProperties.

(** The bootstrap table's select-disk slot is left to the guest; its
    warm-boot slot is handled; an address between two slots is no trap. *)
Example handle_call_bootstrap_seldsk :
  handle_call 8 0x171B Stub.xios0 = (false, Stub.xios0).
Proof. reflexivity. Qed.

Example handle_call_bootstrap_wboot :
  fst (handle_call 8 0x1703 Stub.xios0) = true /\
  PC (cpu_ (snd (handle_call 8 0x1703 Stub.xios0))) = 0x1234.
Proof. split; reflexivity. Qed.

Example handle_call_between_slots :
  handle_call 8 0xFC1F Stub.xios0 = (false, Stub.xios0).
Proof. reflexivity. Qed.

(** C3, where the code departs from it.  With the full table moved to
    0x1000, below the bootstrap table at its default 0x1700, the address
    0x1703 is a trap: it lies outside the full table's window and is the
    warm-boot slot of the bootstrap table, a slot that has a handler and
    is not select-disk.  [handle_call] takes the offset from [xios_base_]
    all the same, because the address is not below it, finds no case for
    0x0703 and answers false, leaving the call to the guest.  With the
    full table at its default the same address is answered by
    [do_wboot]. *)
Theorem handle_call_declines_bootstrap_slot :
  let x := set_xios_base 0x1000 Stub.xios0 in
  let pc := 0x1703 in
  is_xios_call x pc = true /\
  ~ in_window (xios_base_ x) pc /\
  is_slot (ldrbios_base_ x) 0x30 pc /\
  pc - ldrbios_base_ x = XIOS_WBOOT /\
  XIOS_WBOOT <> XIOS_SELDSK /\
  handler_for 8 XIOS_WBOOT =
    Some (do_wboot : Act (@XIOS Stub.Memory Stub.Disks Stub.Consoles) unit) /\
  call_offset x pc = 0x0703 /\
  handle_call 8 pc x = (false, x) /\
  handle_call 8 pc Stub.xios0 = (true, exec do_wboot Stub.xios0).
Proof.
  cbv zeta.
  split; [ reflexivity | ].
  split; [ unfold in_window; cbn; lia | ].
  split; [ unfold is_slot, in_window; cbn;
           split; [ lia | split; [ reflexivity | lia ] ] | ].
  split; [ reflexivity | ].
  split; [ discriminate | ].
  repeat split.
Qed.

(** A set-track call at the full table's slot 0x1E, with 0x1234 on top of
    the stack at 0xF000. *)
Lemma handle_call_synthetic_return_settrk :
  fst (handle_call 8 0xFC1E Stub.xios0) = true /\
  PC (cpu_ (snd (handle_call 8 0xFC1E Stub.xios0))) = 0x1234 /\
  SP (cpu_ (snd (handle_call 8 0xFC1E Stub.xios0))) = 0xF002.
Proof.
  split; [ reflexivity | ].
  destruct (handle_call_synthetic_return 8 Stub.xios0 0xFC1E eq_refl)
    as [HPC [HSP _]].
  split; [ rewrite HPC | rewrite HSP ]; reflexivity.
Defined.

(** ** Disk selection and interrupt re-enabling *)

Section HandlerProperties.

Context {M D C : Type}.
Context {MemOps : BankedMemory M} {DiskOps : DiskSystem D M}
        {ConOps : ConsoleManager C}.
Implicit Type x : @XIOS M D C.

(** A rejected selection: the null pointer in HL, nothing latched. *)
Lemma do_seldsk_rejected x :
  fst (disk_select (disks_ x) (Pair16.get_low (BC (cpu_ x)))) = false ->
  HL (cpu_ (exec do_seldsk x)) = 0 /\
  current_disk_ (exec do_seldsk x) = current_disk_ x.
Proof.
  intros Hrej. unfold do_seldsk, reg, set_HL.
  autorewrite with act. rewrite Hrej. cbn [negb].
  autorewrite with act. rewrite do_ret_exec. proj.
  split; reflexivity.
Qed.

(** An accepted selection: the disk latched, HL the 16-bit address of its
    disk-parameter header. *)
Lemma do_seldsk_accepted x :
  fst (disk_select (disks_ x) (Pair16.get_low (BC (cpu_ x)))) = true ->
  current_disk_ (exec do_seldsk x) = Pair16.get_low (BC (cpu_ x)) /\
  HL (cpu_ (exec do_seldsk x)) =
    (xios_base_ x + 0x100 + 16 * Pair16.get_low (BC (cpu_ x))) mod 65536.
Proof.
  intros Hacc. unfold do_seldsk, reg, set_HL.
  autorewrite with act. rewrite Hacc. cbn [negb].
  autorewrite with act. rewrite do_ret_exec. proj.
  split; [ reflexivity | ].
  unfold Pair16.set_pair16, u16. rewrite Z.mod_mod by lia.
  f_equal. lia.
Qed.

(** C4, as the code has it: with disk number N in register C, a selection
    the disk engine rejects leaves HL = 0 and [current_disk_] as it was; a
    selection it accepts latches N and leaves in HL the 16-bit value
    (xios_base + 0x100 + 16*N) mod 65536, which is xios_base + 0x100 + 16*N
    itself whenever that sum is below 65536. *)
Theorem do_seldsk_result x :
  let n := Pair16.get_low (BC (cpu_ x)) in
  let x' := exec do_seldsk x in
  (fst (disk_select (disks_ x) n) = false ->
     HL (cpu_ x') = 0 /\ current_disk_ x' = current_disk_ x) /\
  (fst (disk_select (disks_ x) n) = true ->
     current_disk_ x' = n /\
     HL (cpu_ x') = (xios_base_ x + 0x100 + 16 * n) mod 65536 /\
     (0 <= xios_base_ x -> xios_base_ x + 0x100 + 16 * n < 65536 ->
      HL (cpu_ x') = xios_base_ x + 0x100 + 16 * n)).
Proof.
  intros n x'. split.
  - apply do_seldsk_rejected.
  - intros Hacc. destruct (do_seldsk_accepted x Hacc) as [Hd Hhl].
    split; [ exact Hd | split; [ exact Hhl | ] ].
    intros Hb Hfit. fold n in Hhl. subst x'. rewrite Hhl.
    pose proof (get_low_range (BC (cpu_ x))). fold n in H.
    apply Z.mod_small. lia.
Qed.

(** C8: [do_exitregion] sets IFF1 and IFF2 to 1 when [preempted_] is
    false, and leaves both as they were when it is true. *)
Theorem do_exitregion_iff x :
  let x' := exec do_exitregion x in
  (preempted_ x = false -> IFF1 (cpu_ x') = 1 /\ IFF2 (cpu_ x') = 1) /\
  (preempted_ x = true ->
     IFF1 (cpu_ x') = IFF1 (cpu_ x) /\ IFF2 (cpu_ x') = IFF2 (cpu_ x)).
Proof.
  intros x'. subst x'. unfold do_exitregion.
  autorewrite with act. rewrite exec_when.
  split; intros ->; cbn [negb]; autorewrite with act;
    rewrite do_ret_exec; proj; split; reflexivity.
Qed.

End HandlerProperties.

(** Drive 2 of four, table at 0xFC00: the header at 0xFD20.  Drive 9 is
    rejected. *)
Example do_seldsk_drive_2 :
  let x := exec do_seldsk (set_cpu (with_BC 0x0002) Stub.xios0) in
  HL (cpu_ x) = 0xFD20 /\ current_disk_ x = 2.
Proof. split; reflexivity. Qed.

Example do_seldsk_drive_9 :
  let x := exec do_seldsk (set_cpu (with_BC 0x0009)
                             (set_current_disk 1 Stub.xios0)) in
  HL (cpu_ x) = 0 /\ current_disk_ x = 1.
Proof. split; reflexivity. Qed.

(** Interrupts off, then exit-region outside and inside a preemption. *)
Example do_exitregion_not_preempted :
  let x := exec do_exitregion Stub.xios0 in
  IFF1 (cpu_ x) = 1 /\ IFF2 (cpu_ x) = 1.
Proof. split; reflexivity. Qed.

Example do_exitregion_preempted :
  let x := exec do_exitregion (set_preempted true Stub.xios0) in
  IFF1 (cpu_ x) = 0 /\ IFF2 (cpu_ x) = 0.
Proof. split; reflexivity. Qed.

(** C4, as written, fails where the address leaves the 16 bits of HL: an
    accepted drive 0 of a table at 0xFF00, or an accepted drive 48 of the
    table at its default 0xFC00, gets HL = 0, the value of a rejection. *)
Lemma do_seldsk_wraps :
  let x := set_xios_base 0xFF00 Stub.xios0 in
  let y := set_disks (Stub.mkDisks 64 0 0 0) (set_cpu (with_BC 48) Stub.xios0) in
  (fst (disk_select (disks_ x) (Pair16.get_low (BC (cpu_ x)))) = true /\
   xios_base_ x + 0x100 + 16 * Pair16.get_low (BC (cpu_ x)) = 65536 /\
   HL (cpu_ (exec do_seldsk x)) = 0) /\
  (fst (disk_select (disks_ y) (Pair16.get_low (BC (cpu_ y)))) = true /\
   xios_base_ y + 0x100 + 16 * Pair16.get_low (BC (cpu_ y)) = 65536 /\
   HL (cpu_ (exec do_seldsk y)) = 0).
Proof. repeat split. Qed.

(** ** Latching of track, sector and DMA address *)

Section LatchProperties.

Context {M D C : Type}.
Context {MemOps : BankedMemory M} {DiskOps : DiskSystem D M}
        {ConOps : ConsoleManager C}.
Implicit Type x : @XIOS M D C.

(** One latching call: the named field takes the value, the other two
    stay, and the disk engine is not called. *)
Lemma call_setter_effect s x :
  let y := exec (call_setter s) x in
  current_track_ y = or_else (last_track [s]) (current_track_ x) /\
  current_sector_ y = or_else (last_sector [s]) (current_sector_ x) /\
  dma_addr_ y = or_else (last_dma [s]) (dma_addr_ x) /\
  disk_events (trace y) = disk_events (trace x).
Proof.
  destruct s; cbn [call_setter];
    unfold do_settrk, do_setsec, do_setdma, reg;
    autorewrite with act; rewrite do_ret_exec; proj;
    (repeat split; [ .. | unfold disk_events; rewrite <- !app_assoc, filter_app;
                          cbn; apply app_nil_r ]);
    reflexivity.
Qed.

Lemma call_setters_cons s rest x :
  call_setters (s :: rest) x = call_setters rest (exec (call_setter s) x).
Proof. reflexivity. Qed.

Lemma call_setters_effect ss : forall x,
  let y := call_setters ss x in
  current_track_ y = or_else (last_track ss) (current_track_ x) /\
  current_sector_ y = or_else (last_sector ss) (current_sector_ x) /\
  dma_addr_ y = or_else (last_dma ss) (dma_addr_ x) /\
  disk_events (trace y) = disk_events (trace x).
Proof.
  induction ss as [ | s rest IH ]; intros x.
  - repeat split.
  - destruct (call_setter_effect s x) as [Ht [Hs [Hd Hev]]].
    destruct (IH (exec (call_setter s) x)) as [Ht' [Hs' [Hd' Hev']]].
    cbv zeta. rewrite !call_setters_cons.
    rewrite Ht', Hs', Hd', Hev', Ht, Hs, Hd, Hev.
    cbn [last_track last_sector last_dma].
    repeat split;
      [ destruct (last_track rest) | destruct (last_sector rest)
      | destruct (last_dma rest) ];
      destruct s; reflexivity.
Qed.

(** A latching call reaches neither the disk engine nor guest memory. *)
Lemma call_setter_engine s x :
  disks_ (exec (call_setter s) x) = disks_ x /\
  mem_ (exec (call_setter s) x) = mem_ x.
Proof.
  destruct s; cbn [call_setter];
    unfold do_settrk, do_setsec, do_setdma, reg;
    autorewrite with act; rewrite do_ret_exec; proj; split; reflexivity.
Qed.

Lemma call_setters_engine ss : forall x,
  disks_ (call_setters ss x) = disks_ x /\ mem_ (call_setters ss x) = mem_ x.
Proof.
  induction ss as [ | s rest IH ]; intros x; [ split; reflexivity | ].
  rewrite call_setters_cons.
  destruct (IH (exec (call_setter s) x)) as [Hd Hm].
  destruct (call_setter_engine s x) as [Hd' Hm'].
  rewrite Hd, Hm, Hd', Hm'. split; reflexivity.
Qed.

(** The calls [do_read] makes to the disk engine. *)
Lemma do_read_disk_events x :
  disk_events (trace (exec do_read x)) =
  disk_events (trace x) ++
  [EvSetTrack (current_track_ x); EvSetSector (current_sector_ x);
   EvSetDma (dma_addr_ x); EvDiskRead].
Proof.
  unfold do_read, disk_setup, set_A.
  autorewrite with act. rewrite do_ret_exec. proj.
  unfold disk_events. rewrite <- !app_assoc, filter_app. reflexivity.
Qed.

(** The engine and the memory [do_read] leaves, and the status in A: the
    transfer is made by the engine that was handed the three latches. *)
Lemma do_read_engine x :
  let r := disk_read
             (engine_given (disks_ x) (current_track_ x) (current_sector_ x)
                (dma_addr_ x))
             (mem_ x) in
  disks_ (exec do_read x) = snd (fst r) /\
  mem_ (exec do_read x) = snd r /\
  Pair16.get_high (AF (cpu_ (exec do_read x))) = u8 (fst (fst r)).
Proof.
  cbv zeta. unfold engine_given, do_read, disk_setup, set_A.
  autorewrite with act. rewrite do_ret_exec. proj.
  rewrite get_high_set_high. repeat split.
Qed.

(** C5: after any sequence of set-track, set-sector and set-dma calls
    whose last set-track passed T, last set-sector S and last set-dma D,
    whatever their order and number, the disk engine and guest memory are
    still as they were before the sequence, and [do_read] then hands that
    engine T, then S, then D, and asks the transfer of the engine so set:
    the engine and the memory after [do_read] are the ones this transfer
    leaves, and A holds its status.  The calls recorded for the engine
    are these four, after the ones recorded before. *)
Theorem do_read_presents_latched (ss : list Setter) (T S D' : Z) x :
  last_track ss = Some T ->
  last_sector ss = Some S ->
  last_dma ss = Some D' ->
  let y := call_setters ss x in
  let r := disk_read (engine_given (disks_ x) T S D') (mem_ x) in
  (disks_ y = disks_ x /\ mem_ y = mem_ x) /\
  (disks_ (exec do_read y) = snd (fst r) /\
   mem_ (exec do_read y) = snd r /\
   Pair16.get_high (AF (cpu_ (exec do_read y))) = u8 (fst (fst r))) /\
  disk_events (trace (exec do_read y)) =
  disk_events (trace x) ++ [EvSetTrack T; EvSetSector S; EvSetDma D'; EvDiskRead].
Proof.
  intros HT HS HD. cbv zeta.
  destruct (call_setters_effect ss x) as [Ht [Hs [Hd Hev]]].
  destruct (call_setters_engine ss x) as [Hdisks Hmem].
  rewrite HT in Ht. rewrite HS in Hs. rewrite HD in Hd.
  cbn [or_else] in Ht, Hs, Hd.
  split; [ split; assumption | ].
  split.
  - pose proof (do_read_engine (call_setters ss x)) as He. cbv zeta in He.
    rewrite Ht, Hs, Hd, Hdisks, Hmem in He. exact He.
  - rewrite do_read_disk_events, Ht, Hs, Hd, Hev. reflexivity.
Qed.

End LatchProperties.

(** Set-dma first, the track set twice, the sector last: the engine ends
    with track 2, sector 5 and DMA address 0x0100. *)
Lemma do_read_presents_latched_run :
  let y := exec do_read
             (call_setters [SetDma 0x0100; SetTrk 7; SetTrk 2; SetSec 5]
                Stub.xios0) in
  disks_ y = Stub.mkDisks 4 2 5 0x0100 /\
  disk_events (trace y) =
  [EvSetTrack 2; EvSetSector 5; EvSetDma 0x0100; EvDiskRead].
Proof.
  destruct (do_read_presents_latched
              [SetDma 0x0100; SetTrk 7; SetTrk 2; SetSec 5] 2 5 0x0100 Stub.xios0
              eq_refl eq_refl eq_refl) as [_ [[Hdisks _] Hev]].
  split; [ rewrite Hdisks; reflexivity | rewrite Hev; reflexivity ].
Defined.

(** ** The bootstrap call emulator *)

Lemma print_events_writes bytes : forall addr,
  filter is_write_char (print_events bytes addr) =
  map (EvWriteChar 0) (until_dollar bytes).
Proof.
  induction bytes as [ | b rest IH ]; intros addr; [ reflexivity | ].
  cbn [print_events until_dollar filter is_write_char].
  destruct (b =? 36); [ reflexivity | ].
  cbn [filter is_write_char map]. rewrite IH. reflexivity.
Qed.

Lemma print_events_fetches bytes : forall addr,
  filter is_fetch (print_events bytes addr) =
  map EvFetch
    (guest_addrs addr (Nat.min (length bytes) (S (length (until_dollar bytes))))).
Proof.
  induction bytes as [ | b rest IH ]; intros addr; [ reflexivity | ].
  cbn [print_events until_dollar filter is_fetch length].
  destruct (b =? 36).
  - cbn [length filter]. rewrite <- Nat.succ_min_distr, Nat.min_0_r. reflexivity.
  - cbn [filter is_fetch length]. rewrite IH.
    rewrite <- Nat.succ_min_distr. reflexivity.
Qed.

Lemma guest_addrs_length n : forall addr, length (guest_addrs addr n) = n.
Proof.
  induction n as [ | n IH ]; intros addr; [ reflexivity | ].
  cbn [guest_addrs length]. rewrite IH. reflexivity.
Qed.

Section BdosProperties.

Context {M D C : Type}.
Context {MemOps : BankedMemory M} {DiskOps : DiskSystem D M}
        {ConOps : ConsoleManager C}.
Implicit Type x : @XIOS M D C.
Local Abbreviation State := (@XIOS M D C).

Lemma guest_bytes_length (m : M) n : forall addr,
  length (guest_bytes m addr n) = n.
Proof.
  induction n as [ | n IH ]; intros addr; [ reflexivity | ].
  cbn [guest_bytes length]. rewrite IH. reflexivity.
Qed.

(** The loop of function 9 touches nothing but the console and the
    trace. *)
Lemma print_string_exec n : forall addr x,
  let y := exec (print_string n addr) x in
  trace y = trace x ++ print_events (guest_bytes (mem_ x) addr n) addr /\
  mem_ y = mem_ x /\ cpu_ y = cpu_ x.
Proof.
  induction n as [ | n IH ]; intros addr x.
  - cbn [print_string guest_bytes print_events]. autorewrite with act.
    rewrite app_nil_r. repeat split.
  - cbn [print_string guest_bytes print_events]. autorewrite with act.
    destruct (u8 (fetch_mem (mem_ x) addr) =? 36).
    + autorewrite with act. proj. repeat split.
    + autorewrite with act.
      match goal with
      | |- context [exec (print_string n ?a) ?s] => destruct (IH a s) as [Ht [Hm Hc]]
      end.
      rewrite Ht, Hm, Hc. proj.
      rewrite <- !app_assoc. repeat split.
Qed.

(** [do_bdos] is the counting of the call, the function's case, and the
    synthetic return. *)
Lemma do_bdos_exec x :
  exec do_bdos x =
  exec do_ret
    (exec (bdos_function (Pair16.get_low (BC (cpu_ x))) (DE (cpu_ x)))
       (if call_count x <? 50 then set_call_count (call_count x + 1) x else x)).
Proof.
  unfold do_bdos, reg. autorewrite with act. rewrite exec_when.
  unfold Pair16.get_pair16. destruct (call_count x <? 50); reflexivity.
Qed.

Lemma bdos_function_9 de :
  bdos_function 9 de =
  (con <- con_get 0 ;; when con (print_string 1000 de) : Act State unit)%act.
Proof. reflexivity. Qed.

Lemma bdos_function_14 de :
  bdos_function 14 de =
  (modify (set_current_disk (Z.land de 0x0F)) ;;
   d <- gets current_disk_ ;;
   ds_select d ;;
   set_A 0 : Act State unit)%act.
Proof. reflexivity. Qed.

(** What the loop of function 9 leaves on the console manager. *)
Lemma print_string_consoles n : forall addr x,
  consoles_ (exec (print_string n addr) x) =
  written_to_console_0 (until_dollar (guest_bytes (mem_ x) addr n)) (consoles_ x).
Proof.
  unfold written_to_console_0.
  induction n as [ | n IH ]; intros addr x; [ reflexivity | ].
  cbn [print_string guest_bytes until_dollar]. autorewrite with act.
  destruct (u8 (fetch_mem (mem_ x) addr) =? 36).
  - autorewrite with act. reflexivity.
  - autorewrite with act. rewrite IH. proj. reflexivity.
Qed.

(** C9: function 9 of [do_bdos], when console 0 exists, leaves the
    console manager as it is after one [write_char] on console 0 for each
    guest byte from the address in DE on, in address order, up to and
    without the first ['$'] among the first 1000 bytes; without console 0
    the console manager is left as it was.  The calls are made in this
    order: each byte is fetched, then written, the ['$'] is fetched and
    not written; at most 1000 bytes are fetched and at most 1000 written
    whether or not a ['$'] is there, and none without console 0.  The two
    fetches of the synthetic return follow.  ([do_bdos] is a total
    function: the loop is by recursion on its counter.) *)
Theorem do_bdos_print_string x :
  Pair16.get_low (BC (cpu_ x)) = 9 ->
  let de := DE (cpu_ x) in
  let sp := SP (cpu_ x) in
  let bytes := guest_bytes (mem_ x) de 1000 in
  let evs := if console_get (consoles_ x) 0 then print_events bytes de else [] in
  consoles_ (exec do_bdos x) =
    (if console_get (consoles_ x) 0
     then written_to_console_0 (until_dollar bytes) (consoles_ x)
     else consoles_ x) /\
  trace (exec do_bdos x) = trace x ++ evs ++ [EvFetch sp; EvFetch (sp + 1)] /\
  filter is_write_char evs =
    (if console_get (consoles_ x) 0
     then map (EvWriteChar 0) (until_dollar bytes) else []) /\
  filter is_fetch evs =
    (if console_get (consoles_ x) 0
     then map EvFetch
            (guest_addrs de (Nat.min 1000 (S (length (until_dollar bytes)))))
     else []) /\
  (length (filter is_fetch evs) <= 1000)%nat /\
  (length (until_dollar bytes) <= 1000)%nat.
Proof.
  intros Hfunc de sp bytes evs.
  assert (Hfetch : filter is_fetch evs =
    (if console_get (consoles_ x) 0
     then map EvFetch
            (guest_addrs de (Nat.min 1000 (S (length (until_dollar bytes)))))
     else [])).
  { subst evs. destruct (console_get (consoles_ x) 0); [ | reflexivity ].
    rewrite print_events_fetches. subst bytes.
    rewrite guest_bytes_length. reflexivity. }
  set (x0 := if call_count x <? 50 then set_call_count (call_count x + 1) x else x).
  assert (Hx0 : trace x0 = trace x /\ mem_ x0 = mem_ x /\ cpu_ x0 = cpu_ x /\
                consoles_ x0 = consoles_ x)
    by (subst x0; destruct (call_count x <? 50); repeat split).
  destruct Hx0 as [Ht0 [Hm0 [Hc0 Hk0]]].
  split; [ | split; [ | split; [ | split; [ | split ] ] ] ].
  - rewrite do_bdos_exec, Hfunc, bdos_function_9. fold x0.
    autorewrite with act. rewrite exec_when. unfold con_get. autorewrite with act.
    rewrite do_ret_exec. proj. rewrite Hk0.
    destruct (console_get (consoles_ x) 0).
    + rewrite print_string_consoles, Hm0, Hk0. reflexivity.
    + exact Hk0.
  - rewrite do_bdos_exec, Hfunc, bdos_function_9. fold x0.
    autorewrite with act. rewrite exec_when. unfold con_get. autorewrite with act.
    rewrite do_ret_trace. subst evs. rewrite Hk0.
    destruct (console_get (consoles_ x) 0).
    + destruct (print_string_exec 1000 (DE (cpu_ x)) x0) as [Ht [Hm Hc]].
      rewrite Ht, Hc, Ht0, Hm0, Hc0. subst bytes de sp.
      rewrite <- !app_assoc. reflexivity.
    + rewrite Ht0, Hc0. reflexivity.
  - subst evs. destruct (console_get (consoles_ x) 0); [ | reflexivity ].
    apply print_events_writes.
  - exact Hfetch.
  - rewrite Hfetch. destruct (console_get (consoles_ x) 0); cbn [length]; [ | lia ].
    rewrite length_map, guest_addrs_length. apply Nat.le_min_l.
  - subst bytes. rewrite <- (guest_bytes_length (mem_ x) 1000 de) at 2.
    generalize (guest_bytes (mem_ x) de 1000). intros l.
    induction l as [ | b rest IH ]; [ apply le_n | ].
    cbn [until_dollar]. destruct (b =? 36); cbn [length]; lia.
Qed.

(** C10: function 14 of [do_bdos] latches the low 4 bits of DE as
    [current_disk_], asks the disk engine to select that disk, and leaves
    A = 0, whatever the engine answers; a rejection by the engine changes
    neither.  The full table's [do_seldsk], on a rejection, leaves
    [current_disk_] as it was and HL = 0. *)
Theorem do_bdos_select_disk x :
  Pair16.get_low (BC (cpu_ x)) = 14 ->
  let d := Z.land (DE (cpu_ x)) 0x0F in
  let x' := exec do_bdos x in
  (current_disk_ x' = d /\
   Pair16.get_high (AF (cpu_ x')) = 0 /\
   trace x' = trace x ++
     [EvDiskSelect d; EvFetch (SP (cpu_ x)); EvFetch (SP (cpu_ x) + 1)]) /\
  (forall y : State,
     fst (disk_select (disks_ y) (Pair16.get_low (BC (cpu_ y)))) = false ->
     HL (cpu_ (exec do_seldsk y)) = 0 /\
     current_disk_ (exec do_seldsk y) = current_disk_ y).
Proof.
  intros Hfunc d x'. split; [ | apply do_seldsk_rejected ].
  subst x'. rewrite do_bdos_exec, Hfunc, bdos_function_14.
  unfold set_A. autorewrite with act. rewrite do_ret_exec.
  destruct (call_count x <? 50); proj;
    (split; [ reflexivity | split; [ | rewrite <- !app_assoc; reflexivity ] ]);
    rewrite get_high_set_high; reflexivity.
Qed.

End BdosProperties.

(** Function 9 on the string "HI$" at 0x0200: console 0 holds H and I. *)
Lemma do_bdos_print_string_hi :
  let x := set_cpu (fun r => with_DE 0x0200 (with_BC 9 r)) Stub.xios0 in
  Pair16.get_low (BC (cpu_ x)) = 9 /\
  Stub.output (consoles_ (exec do_bdos x)) = [(0, 0x48); (0, 0x49)] /\
  trace (exec do_bdos x) =
  [EvFetch 0x0200; EvWriteChar 0 0x48; EvFetch 0x0201; EvWriteChar 0 0x49;
   EvFetch 0x0202; EvFetch 0xF000; EvFetch 0xF001].
Proof.
  intros x. split; [ reflexivity | ].
  destruct (do_bdos_print_string x eq_refl) as [Hcon [Htrace _]].
  split; [ rewrite Hcon | rewrite Htrace ]; reflexivity.
Defined.

(** Function 9 on a memory without ['$']: the loop stops after 1000
    fetches and 1000 characters. *)
Example do_bdos_print_string_capped :
  let x := set_mem Stub.mem_no_dollar
             (set_cpu (fun r => with_DE 0xFFF0 (with_BC 9 r)) Stub.xios0) in
  length (filter is_fetch (trace (exec do_bdos x))) = 1002%nat /\
  length (filter is_write_char (trace (exec do_bdos x))) = 1000%nat.
Proof. vm_compute. split; reflexivity. Qed.

(** Function 14 with DE = 0x0129 on an engine with four drives: drive 9
    is rejected, and is latched all the same, with A = 0. *)
Lemma do_bdos_select_disk_rejected :
  let x := set_cpu (fun r => with_DE 0x0129 (with_BC 14 r)) Stub.xios0 in
  Pair16.get_low (BC (cpu_ x)) = 14 /\
  fst (disk_select (disks_ x) 9) = false /\
  current_disk_ (exec do_bdos x) = 9 /\
  Pair16.get_high (AF (cpu_ (exec do_bdos x))) = 0.
Proof.
  intros x. split; [ reflexivity | split; [ reflexivity | ] ].
  destruct (do_bdos_select_disk x eq_refl) as [[Hdisk [HA _]] _].
  split; [ rewrite Hdisk; reflexivity | exact HA ].
Defined.

(** ** The console queue *)

Lemma byte_val_nonneg b : 0 <= byte_val b.
Proof. unfold byte_val. apply N2Z.is_nonneg. Qed.

Lemma byte_val_not_sentinel b : (byte_val b =? -1) = false.
Proof. apply Z.eqb_neq. pose proof (byte_val_nonneg b). lia. Qed.

Section QueueProperties.

Variable CAPACITY : Z.

Implicit Type q : ConsoleQueue.

Lemma size_nonneg q : 0 <= size q.
Proof. unfold size. lia. Qed.

Lemma size_push ch q : size (push ch q) = size q + 1.
Proof. unfold size, push. cbn [queue_]. rewrite length_app. cbn [length]. lia. Qed.

(** *** The bulk transfers *)

Lemma write_some_spec data : forall q,
  let r := write_some CAPACITY data q in
  0 <= fst r /\
  queue_ (snd r) = queue_ q ++ firstn (Z.to_nat (fst r)) data /\
  (size q <= CAPACITY -> size (snd r) <= CAPACITY).
Proof.
  induction data as [ | ch rest IH ]; intros q.
  - cbn. rewrite app_nil_r. repeat split; lia.
  - cbn [write_some]. destruct (Z.ltb_spec (size q) CAPACITY) as [Hlt | Hge].
    + specialize (IH (push ch q)). cbv zeta in IH.
      destruct (write_some CAPACITY rest (push ch q)) as [n q'].
      cbn [fst snd] in *. destruct IH as [Hn [Hq Hb]].
      split; [ lia | split ].
      * rewrite Hq. replace (Z.to_nat (n + 1)) with (S (Z.to_nat n)) by lia.
        cbn [firstn push queue_]. rewrite <- app_assoc. reflexivity.
      * intros _. apply Hb. rewrite size_push. lia.
    + cbn. rewrite app_nil_r. repeat split; lia.
Qed.

Lemma read_some_loop_spec n : forall l,
  let r := read_some_loop n l in fst r ++ snd r = l.
Proof.
  induction n as [ | n IH ]; intros l; [ reflexivity | ].
  destruct l as [ | ch rest ]; [ reflexivity | ].
  cbn [read_some_loop]. specialize (IH rest). cbv zeta in IH.
  destruct (read_some_loop n rest) as [d l']. cbn [fst snd] in *.
  rewrite <- IH. reflexivity.
Qed.

Lemma read_some_spec n q :
  fst (read_some n q) ++ queue_ (snd (read_some n q)) = queue_ q.
Proof.
  unfold read_some. pose proof (read_some_loop_spec (Z.to_nat n) (queue_ q)) as H.
  cbv zeta in H. destruct (read_some_loop (Z.to_nat n) (queue_ q)) as [d l].
  exact H.
Qed.

Lemma clear_loop_nil l : clear_loop l = [].
Proof. induction l as [ | ch rest IH ]; [ reflexivity | exact IH ]. Qed.

Lemma clear_empties q : clear q = ConsoleQueue_new.
Proof. unfold clear, ConsoleQueue_new. rewrite clear_loop_nil. reflexivity. Qed.

(** *** The bound *)

Lemma call_bounded c q a q' :
  0 <= CAPACITY ->
  size q <= CAPACITY -> call CAPACITY c q = Some (a, q') -> size q' <= CAPACITY.
Proof.
  intros Hcap Hq. destruct c; cbn [call].
  - unfold try_read. destruct q as [[ | ch rest]]; cbn [queue_];
      intros H; inversion H; subst; clear H; [ exact Hq | ].
    unfold size in *. cbn [queue_ length] in *. lia.
  - unfold read. destruct q as [[ | ch rest]]; cbn [queue_].
    + destruct (timeout_ms =? 0); intros H; inversion H; subst. exact Hq.
    + intros H; inversion H; subst. unfold size in *. cbn [queue_ length] in *. lia.
  - unfold try_write. destruct (Z.leb_spec CAPACITY (size q)) as [Hle | Hgt];
      intros H; inversion H; subst; [ exact Hq | ].
    rewrite size_push. lia.
  - unfold write. destruct (Z.ltb_spec (size q) CAPACITY) as [Hlt | Hge].
    + intros H; inversion H; subst. rewrite size_push. lia.
    + destruct (timeout_ms =? 0); intros H; inversion H; subst. exact Hq.
  - pose proof (read_some_spec max_len q) as Hrs.
    destruct (read_some max_len q) as [d q1]. cbn [fst snd] in Hrs.
    intros H; inversion H; subst.
    unfold size in *. rewrite <- Hrs, length_app in Hq. lia.
  - pose proof (write_some_spec data q) as Hws. cbv zeta in Hws.
    destruct (write_some CAPACITY data q) as [n q1]. cbn [fst snd] in Hws.
    intros H; inversion H; subst. apply Hws. exact Hq.
  - intros H; inversion H; subst. rewrite clear_empties. exact Hcap.
Qed.

Lemma step_bounded h c :
  0 <= CAPACITY ->
  size (h_queue h) <= CAPACITY -> size (h_queue (step CAPACITY h c)) <= CAPACITY.
Proof.
  intros Hcap Hq. unfold step.
  destruct (call CAPACITY c (h_queue h)) as [[a q'] | ] eqn:Hcall; [ | exact Hq ].
  cbn [h_queue]. apply (call_bounded c (h_queue h) a q' Hcap Hq Hcall).
Qed.

Lemma run_bounded cs : forall h,
  0 <= CAPACITY ->
  size (h_queue h) <= CAPACITY ->
  size (h_queue (fold_left (step CAPACITY) cs h)) <= CAPACITY.
Proof.
  induction cs as [ | c rest IH ]; intros h Hcap Hq; [ exact Hq | ].
  cbn [fold_left]. apply IH; [ exact Hcap | ]. apply step_bounded; assumption.
Qed.

(** C6: for a queue of capacity [CAPACITY] (a [size_t]), after any
    sequence of [try_read], [read], [try_write], [write], [read_some],
    [write_some] and [clear] calls on the queue as constructed,
    [available() + space()] is [CAPACITY] and the queue holds at most
    [CAPACITY] bytes. *)
Theorem console_queue_capacity (cs : list Call) :
  0 <= CAPACITY < 2 ^ 64 ->
  let q := h_queue (run CAPACITY cs ConsoleQueue_new) in
  available q + space CAPACITY q = CAPACITY /\ size q <= CAPACITY.
Proof.
  intros Hcap q.
  assert (Hq : size q <= CAPACITY).
  { subst q. unfold run. apply run_bounded; [ lia | ].
    cbn. lia. }
  split; [ | exact Hq ].
  unfold available, space, size_t. pose proof (size_nonneg q).
  rewrite Z.mod_small by lia. lia.
Qed.

(** *** First in, first out *)

Lemma call_fifo c q a q' :
  is_clear c = false ->
  call CAPACITY c q = Some (a, q') ->
  dequeued c a ++ contents q' = contents q ++ enqueued c a.
Proof.
  intros Hc. unfold contents. destruct c; cbn [call]; try discriminate.
  - unfold try_read. destruct q as [[ | ch rest]]; cbn [queue_];
      intros H; inversion H; subst; clear H; cbn [dequeued enqueued].
    + reflexivity.
    + rewrite byte_val_not_sentinel, app_nil_r. reflexivity.
  - unfold read. destruct q as [[ | ch rest]]; cbn [queue_].
    + destruct (timeout_ms =? 0); intros H; inversion H; subst. reflexivity.
    + intros H; inversion H; subst. cbn [dequeued enqueued].
      rewrite byte_val_not_sentinel, app_nil_r. reflexivity.
  - unfold try_write. destruct (CAPACITY <=? size q);
      intros H; inversion H; subst; cbn [dequeued enqueued push queue_].
    + rewrite app_nil_r. reflexivity.
    + rewrite map_app. reflexivity.
  - unfold write. destruct (size q <? CAPACITY).
    + intros H; inversion H; subst. cbn [dequeued enqueued push queue_].
      rewrite map_app. reflexivity.
    + destruct (timeout_ms =? 0); intros H; inversion H; subst.
      cbn [dequeued enqueued]. rewrite app_nil_r. reflexivity.
  - pose proof (read_some_spec max_len q) as Hrs.
    destruct (read_some max_len q) as [d q1]. cbn [fst snd] in Hrs.
    intros H; inversion H; subst. cbn [dequeued enqueued].
    rewrite app_nil_r, <- map_app, Hrs. reflexivity.
  - pose proof (write_some_spec data q) as Hws. cbv zeta in Hws.
    destruct (write_some CAPACITY data q) as [n q1]. cbn [fst snd] in Hws.
    destruct Hws as [_ [Hq1 _]].
    intros H; inversion H; subst. cbn [dequeued enqueued].
    rewrite Hq1, map_app. reflexivity.
Qed.

Lemma step_fifo q0 h c :
  is_clear c = false -> fifo_from q0 h -> fifo_from q0 (step CAPACITY h c).
Proof.
  unfold fifo_from, step. intros Hc Hh.
  destruct (call CAPACITY c (h_queue h)) as [[a q'] | ] eqn:Hcall; [ | exact Hh ].
  cbn [h_in h_out h_queue].
  rewrite <- app_assoc, (call_fifo c (h_queue h) a q' Hc Hcall).
  rewrite !app_assoc, Hh. reflexivity.
Qed.

Lemma run_fifo q0 cs : forall h,
  forallb (fun c => negb (is_clear c)) cs = true ->
  fifo_from q0 h -> fifo_from q0 (fold_left (step CAPACITY) cs h).
Proof.
  induction cs as [ | c rest IH ]; intros h Hcs Hh; [ exact Hh | ].
  cbn [forallb] in Hcs. apply andb_true_iff in Hcs. destruct Hcs as [Hc Hrest].
  cbn [fold_left]. apply IH; [ exact Hrest | ].
  apply step_fifo; [ | exact Hh ]. apply negb_true_iff. exact Hc.
Qed.

(** C7: the queue is first in, first out.  Over any calls other than
    [clear], from any queue, the values taken out, followed by what the
    queue still holds, are what it held at first followed by the bytes
    successfully put in, in that order ([clear] empties the queue).  A
    byte successfully written to the empty queue, by [try_write] or by
    [write], is what the next [try_read] or [read] answers.  [try_write]
    on a full queue answers false at once and returns the queue as it
    was. *)
Theorem console_queue_fifo :
  (forall q0 cs,
     forallb (fun c => negb (is_clear c)) cs = true ->
     fifo_from q0 (run CAPACITY cs q0)) /\
  (forall q, clear q = ConsoleQueue_new) /\
  (forall b,
     fst (try_write CAPACITY b ConsoleQueue_new) = true ->
     try_read (snd (try_write CAPACITY b ConsoleQueue_new)) =
       (byte_val b, ConsoleQueue_new)) /\
  (forall b t q1,
     write CAPACITY b t ConsoleQueue_new = Some (true, q1) ->
     forall t', read t' q1 = Some (byte_val b, ConsoleQueue_new)) /\
  (forall q ch, full CAPACITY q = true -> try_write CAPACITY ch q = (false, q)).
Proof.
  split; [ | split; [ | split; [ | split ] ] ].
  - intros q0 cs Hcs. unfold run. apply run_fifo; [ exact Hcs | ].
    unfold fifo_from. cbn [h_in h_out h_queue]. rewrite app_nil_r. reflexivity.
  - apply clear_empties.
  - intros b. unfold try_write.
    destruct (CAPACITY <=? size ConsoleQueue_new); [ discriminate | ].
    intros _. reflexivity.
  - intros b t q1. unfold write.
    destruct (size ConsoleQueue_new <? CAPACITY).
    + intros H; inversion H; subst. reflexivity.
    + destruct (t =? 0); discriminate.
  - intros q ch Hfull. unfold full in Hfull. unfold try_write.
    rewrite Hfull. reflexivity.
Qed.

End QueueProperties.

(** A queue of capacity 2: the third write is refused, the reads answer
    in the order written. *)
Lemma console_queue_capacity_run :
  let cs := [CallTryWrite Init.Byte.x61; CallTryWrite Init.Byte.x62; CallTryWrite Init.Byte.x63;
             CallTryRead; CallWriteSome [Init.Byte.x64; Init.Byte.x65]; CallRead 10] in
  0 <= 2 < 2 ^ 64 /\
  let q := h_queue (run 2 cs ConsoleQueue_new) in
  available q + space 2 q = 2 /\ size q <= 2.
Proof.
  intros cs. split; [ lia | ].
  apply (console_queue_capacity 2 cs). lia.
Defined.

Example console_queue_run_history :
  let cs := [CallTryWrite Init.Byte.x61; CallTryWrite Init.Byte.x62; CallTryWrite Init.Byte.x63;
             CallTryRead; CallWriteSome [Init.Byte.x64; Init.Byte.x65]; CallRead 10] in
  let h := run 2 cs ConsoleQueue_new in
  h_in h = [97; 98; 100] /\ h_out h = [97; 98] /\ contents (h_queue h) = [100].
Proof. repeat split. Qed.

(** * Further properties of the dispatcher *)

(** ** Running the remaining collaborator calls *)

Section MoreRunningActions.

Context {M D C : Type}.
Context {MemOps : BankedMemory M} {DiskOps : DiskSystem D M}
        {ConOps : ConsoleManager C}.
Implicit Type x : @XIOS M D C.

Lemma exec_ds_write x :
  exec ds_write x =
  log EvDiskWrite
    (set_mem (snd (disk_write (disks_ x) (mem_ x)))
       (set_disks (snd (fst (disk_write (disks_ x) (mem_ x)))) x)).
Proof.
  unfold exec, ds_write. destruct (disk_write _ _) as [[r d] m]. reflexivity.
Qed.
Lemma fst_ds_write x :
  fst (ds_write x) = fst (fst (disk_write (disks_ x) (mem_ x))).
Proof. unfold ds_write. destruct (disk_write _ _) as [[r d] m]. reflexivity. Qed.

Lemma exec_con_const_status i x :
  exec (con_const_status i) x =
  log (EvConstStatus i) (set_consoles (snd (const_status (consoles_ x) i)) x).
Proof. unfold exec, con_const_status. destruct (const_status _ _). reflexivity. Qed.
Lemma fst_con_const_status i x :
  fst (con_const_status i x) = fst (const_status (consoles_ x) i).
Proof. unfold con_const_status. destruct (const_status _ _). reflexivity. Qed.

Lemma exec_con_read_char i x :
  exec (con_read_char i) x =
  log (EvReadChar i) (set_consoles (snd (read_char (consoles_ x) i)) x).
Proof. unfold exec, con_read_char. destruct (read_char _ _). reflexivity. Qed.
Lemma fst_con_read_char i x :
  fst (con_read_char i x) = fst (read_char (consoles_ x) i).
Proof. unfold con_read_char. destruct (read_char _ _). reflexivity. Qed.

Lemma exec_con_init x :
  exec con_init x = log EvConsoleInit (set_consoles (console_init (consoles_ x)) x).
Proof. reflexivity. Qed.

(** The loop of function 9 changes the console manager and the trace, and
    nothing else. *)
Lemma print_string_shape n : forall addr x,
  exists c t,
    exec (print_string n addr) x =
    mkXIOS (cpu_ x) (mem_ x) (xios_base_ x) (ldrbios_base_ x) (bdos_stub_ x)
      (current_disk_ x) (current_track_ x) (current_sector_ x) (dma_addr_ x)
      (tick_enabled_ x) (preempted_ x) (disks_ x) c (call_count x) t.
Proof.
  induction n as [ | n IH ]; intros addr x.
  - exists (consoles_ x), (trace x). destruct x. reflexivity.
  - cbn [print_string]. autorewrite with act.
    destruct (u8 (fetch_mem (mem_ x) addr) =? 36).
    + autorewrite with act.
      exists (consoles_ x), (trace x ++ [EvFetch addr]). destruct x. reflexivity.
    + autorewrite with act.
      match goal with
      | |- context [exec (print_string n ?a) ?s] =>
          destruct (IH a s) as [c [t E]]; rewrite E
      end.
      exists c, t. reflexivity.
Qed.

End MoreRunningActions.

#[global] Hint Rewrite @exec_ds_write @fst_ds_write @exec_con_const_status
  @fst_con_const_status @exec_con_read_char @fst_con_read_char
  @exec_con_init : act.

(** Projections through the field updates, in a hypothesis. *)
Ltac proj_in H :=
  cbn [cpu_ mem_ xios_base_ ldrbios_base_ bdos_stub_ current_disk_
       current_track_ current_sector_ dma_addr_ tick_enabled_ preempted_
       disks_ consoles_ call_count trace AF BC DE HL SP PC IFF1 IFF2
       set_cpu set_mem set_xios_base set_current_disk set_current_track
       set_current_sector set_dma_addr set_tick_enabled set_preempted
       set_disks set_consoles set_call_count log
       with_AF with_BC with_DE with_HL with_SP with_PC with_IFF] in H.

(** Runs the handler of [H : y = exec h x] on the symbolic state [x]: the
    actions become field updates of [x], one case per branch taken. *)
Ltac run_handler_in H :=
  unfold do_boot, do_wboot, do_const, do_conin, do_conout, do_list, do_punch,
    do_reader, do_home, do_seldsk, do_settrk, do_setsec, do_setdma, do_read,
    do_write, do_listst, do_sectran, do_selmemory, do_polldevice,
    do_startclock, do_stopclock, do_exitregion, do_maxconsole,
    do_systeminit, do_idle, disk_setup, con_ready, con_get, reg, set_A,
    set_HL, when in H;
  repeat (autorewrite with act in H;
          try match type of H with
              | context [if ?b then _ else _] => destruct b eqn:?
              end);
  rewrite ?do_ret_exec in H; proj_in H.

(** The same for [H : y = exec do_bdos x], one case per function number
    and branch. *)
Ltac run_bdos_in H :=
  rewrite ?do_bdos_exec in H;
  unfold bdos_function, con_ready, con_get, set_A, set_HL, when in H;
  repeat (autorewrite with act in H;
          try match type of H with
              | context [if ?b then _ else _] => destruct b eqn:?
              end);
  try match type of H with
      | context [exec (print_string ?n ?a) ?s] =>
          let c := fresh "c" in let t := fresh "t" in let E := fresh "E" in
          destruct (print_string_shape n a s) as [c [t E]];
          rewrite E in H; clear E
      end;
  rewrite ?do_ret_exec in H; proj_in H.

(** Turns the outcomes of integer tests into (in)equalities. *)
Ltac eqb_facts :=
  repeat match goal with
         | H : (_ =? _) = true |- _ => apply Z.eqb_eq in H
         | H : (_ =? _) = false |- _ => apply Z.eqb_neq in H
         end.

(** ** What a dispatched call leaves alone *)

Section DispatchFrames.

Context {M D C : Type}.
Context {MemOps : BankedMemory M} {DiskOps : DiskSystem D M}
        {ConOps : ConsoleManager C}.
Variable MAX_CONSOLES : Z.
Implicit Type x : @XIOS M D C.

Lemma handlers_keep_config offset h x :
  handler_for MAX_CONSOLES offset = Some h -> same_config x (exec h x).
Proof.
  unfold handler_for.
  repeat match goal with
         | |- (if ?b then _ else _) = Some _ -> _ => destruct b
         end;
    intros Hh; inversion Hh; subst h; clear Hh;
    remember (exec _ x) as y eqn:Hy; run_handler_in Hy; subst y;
    unfold same_config; proj; repeat split.
Qed.

Lemma do_bdos_keeps_config x : same_config x (exec do_bdos x).
Proof.
  remember (exec do_bdos x) as y eqn:Hy. run_bdos_in Hy; subst y;
    unfold same_config; proj; repeat split.
Qed.

Lemma same_config_is_xios_call x y :
  same_config x y -> forall a, is_xios_call y a = is_xios_call x a.
Proof.
  intros (Hx & Hl & _ & _) a. unfold is_xios_call. rewrite Hx, Hl. reflexivity.
Qed.

(** What holds of the state every handler leaves holds of the state
    [handle_call] leaves, if it holds of the state given. *)
Lemma handle_call_cases (P : XIOS -> Prop) x pc :
  P x ->
  (forall h, handler_for MAX_CONSOLES (call_offset x pc) = Some h -> P (exec h x)) ->
  P (snd (handle_call MAX_CONSOLES pc x)).
Proof.
  intros Hx Hh. unfold handle_call.
  destruct (negb (is_xios_call x pc)); [ exact Hx | ].
  destruct (is_ldrbios x pc && (call_offset x pc =? XIOS_SELDSK)); [ exact Hx | ].
  destruct (handler_for MAX_CONSOLES (call_offset x pc)) as [h | ];
    [ apply Hh; reflexivity | exact Hx ].
Qed.

(** X1: neither [handle_call], at any address, nor [do_bdos], for any
    function number, moves a table, the bootstrap system-call address or
    the preempted flag; what [is_xios_call] answers is therefore the same
    after a call as before it. *)
Theorem dispatch_keeps_config x pc :
  let x1 := snd (handle_call MAX_CONSOLES pc x) in
  let x2 := exec do_bdos x in
  same_config x x1 /\ same_config x x2 /\
  (forall a, is_xios_call x1 a = is_xios_call x a) /\
  (forall a, is_xios_call x2 a = is_xios_call x a).
Proof.
  intros x1 x2.
  assert (H1 : same_config x x1).
  { apply (handle_call_cases (same_config x));
      [ unfold same_config; repeat split | ].
    intros h Hh. apply (handlers_keep_config _ _ _ Hh). }
  pose proof (do_bdos_keeps_config x) as H2.
  split; [ exact H1 | split; [ exact H2 | split ] ];
    apply same_config_is_xios_call; assumption.
Qed.

(** The fields a handler does not own. *)
Lemma handlers_frame o h x :
  handler_for MAX_CONSOLES o = Some h ->
  let y := exec h x in
  (o <> XIOS_HOME -> o <> XIOS_SETTRK -> current_track_ y = current_track_ x) /\
  (o <> XIOS_SETSEC -> current_sector_ y = current_sector_ x) /\
  (o <> XIOS_SETDMA -> dma_addr_ y = dma_addr_ x) /\
  (o <> XIOS_SELDSK -> current_disk_ y = current_disk_ x) /\
  (o <> XIOS_READ -> o <> XIOS_WRITE -> o <> XIOS_SELMEMORY -> mem_ y = mem_ x) /\
  (o <> XIOS_SELDSK -> o <> XIOS_READ -> o <> XIOS_WRITE -> disks_ y = disks_ x) /\
  (o <> XIOS_CONST -> o <> XIOS_CONIN -> o <> XIOS_CONOUT ->
   o <> XIOS_POLLDEVICE -> o <> XIOS_SYSTEMINIT -> consoles_ y = consoles_ x) /\
  (o <> XIOS_STARTCLOCK -> o <> XIOS_STOPCLOCK ->
   tick_enabled_ y = tick_enabled_ x) /\
  (o <> XIOS_EXITREGION ->
   IFF1 (cpu_ y) = IFF1 (cpu_ x) /\ IFF2 (cpu_ y) = IFF2 (cpu_ x)) /\
  BC (cpu_ y) = BC (cpu_ x) /\ DE (cpu_ y) = DE (cpu_ x) /\
  call_count y = call_count x.
Proof.
  unfold handler_for.
  repeat match goal with
         | |- (if ?b then _ else _) = Some _ -> _ => destruct b eqn:?
         end;
    intros Hh; inversion Hh; subst h; clear Hh; eqb_facts;
    cbv zeta; remember (exec _ x) as y eqn:Hy;
    run_handler_in Hy; subst y; proj;
    repeat first [ split | intro ]; first [ reflexivity | congruence ].
Qed.

(** X3: a call dispatched by [handle_call] writes a latch, guest memory,
    a collaborator or a flag only through the entry point that owns it.
    With [o] the offset computed for the call: the track changes only at
    home and set-track, the sector only at set-sector, the DMA address
    only at set-dma, the disk only at select-disk; guest memory only at
    read, write and select-memory; the disk engine only at select-disk,
    read and write; the consoles only at console status, input, output,
    poll-device and system-init; [tick_enabled_] only at start-clock and
    stop-clock; IFF1 and IFF2 only at exit-region; BC, DE and the call
    counter of [do_bdos] never. *)
Theorem handle_call_frame x pc :
  let o := call_offset x pc in
  let y := snd (handle_call MAX_CONSOLES pc x) in
  (o <> XIOS_HOME -> o <> XIOS_SETTRK -> current_track_ y = current_track_ x) /\
  (o <> XIOS_SETSEC -> current_sector_ y = current_sector_ x) /\
  (o <> XIOS_SETDMA -> dma_addr_ y = dma_addr_ x) /\
  (o <> XIOS_SELDSK -> current_disk_ y = current_disk_ x) /\
  (o <> XIOS_READ -> o <> XIOS_WRITE -> o <> XIOS_SELMEMORY -> mem_ y = mem_ x) /\
  (o <> XIOS_SELDSK -> o <> XIOS_READ -> o <> XIOS_WRITE -> disks_ y = disks_ x) /\
  (o <> XIOS_CONST -> o <> XIOS_CONIN -> o <> XIOS_CONOUT ->
   o <> XIOS_POLLDEVICE -> o <> XIOS_SYSTEMINIT -> consoles_ y = consoles_ x) /\
  (o <> XIOS_STARTCLOCK -> o <> XIOS_STOPCLOCK ->
   tick_enabled_ y = tick_enabled_ x) /\
  (o <> XIOS_EXITREGION ->
   IFF1 (cpu_ y) = IFF1 (cpu_ x) /\ IFF2 (cpu_ y) = IFF2 (cpu_ x)) /\
  BC (cpu_ y) = BC (cpu_ x) /\ DE (cpu_ y) = DE (cpu_ x) /\
  call_count y = call_count x.
Proof.
  intros o y. subst y.
  apply (handle_call_cases (fun y =>
    (o <> XIOS_HOME -> o <> XIOS_SETTRK -> current_track_ y = current_track_ x) /\
    (o <> XIOS_SETSEC -> current_sector_ y = current_sector_ x) /\
    (o <> XIOS_SETDMA -> dma_addr_ y = dma_addr_ x) /\
    (o <> XIOS_SELDSK -> current_disk_ y = current_disk_ x) /\
    (o <> XIOS_READ -> o <> XIOS_WRITE -> o <> XIOS_SELMEMORY -> mem_ y = mem_ x) /\
    (o <> XIOS_SELDSK -> o <> XIOS_READ -> o <> XIOS_WRITE -> disks_ y = disks_ x) /\
    (o <> XIOS_CONST -> o <> XIOS_CONIN -> o <> XIOS_CONOUT ->
     o <> XIOS_POLLDEVICE -> o <> XIOS_SYSTEMINIT -> consoles_ y = consoles_ x) /\
    (o <> XIOS_STARTCLOCK -> o <> XIOS_STOPCLOCK ->
     tick_enabled_ y = tick_enabled_ x) /\
    (o <> XIOS_EXITREGION ->
     IFF1 (cpu_ y) = IFF1 (cpu_ x) /\ IFF2 (cpu_ y) = IFF2 (cpu_ x)) /\
    BC (cpu_ y) = BC (cpu_ x) /\ DE (cpu_ y) = DE (cpu_ x) /\
    call_count y = call_count x)).
  - repeat first [ split | intro ]; reflexivity.
  - intros h Hh. apply (handlers_frame o h x Hh).
Qed.

End DispatchFrames.

(** ** The handler of every slot *)

Section DispatchTable.

Context {M D C : Type}.
Context {MemOps : BankedMemory M} {DiskOps : DiskSystem D M}
        {ConOps : ConsoleManager C}.
Variable MAX_CONSOLES : Z.
Implicit Type x : @XIOS M D C.

(** The switch has the case of every entry point. *)
Lemma entry_points_handler o h :
  In (o, h) (entry_points MAX_CONSOLES) ->
  handler_for MAX_CONSOLES o = Some h /\ 0 <= o <= 0x48 /\ o mod 3 = 0.
Proof.
  unfold entry_points. intros Hin.
  repeat (destruct Hin as [Hin | Hin];
          [ inversion Hin; subst o h; clear Hin;
            split; [ reflexivity
                   | split; [ split; apply Z.leb_le; reflexivity
                            | reflexivity ] ]
          | ]).
  destruct Hin.
Qed.

(** Every multiple of 3 up to the idle slot is an entry point. *)
Lemma entry_points_complete o :
  0 <= o <= 0x48 -> o mod 3 = 0 ->
  exists h, In (o, h) (entry_points MAX_CONSOLES).
Proof.
  intros Hr Hm.
  assert (Hk : exists k, o = 3 * k /\ 0 <= k <= 24).
  { exists (o / 3). pose proof (Z.div_mod o 3 ltac:(lia)). lia. }
  destruct Hk as [k [-> Hk]].
  assert (Hcases : k = 0 \/ k = 1 \/ k = 2 \/ k = 3 \/ k = 4 \/ k = 5 \/ k = 6 \/
                   k = 7 \/ k = 8 \/ k = 9 \/ k = 10 \/ k = 11 \/ k = 12 \/
                   k = 13 \/ k = 14 \/ k = 15 \/ k = 16 \/ k = 17 \/ k = 18 \/
                   k = 19 \/ k = 20 \/ k = 21 \/ k = 22 \/ k = 23 \/ k = 24) by lia.
  unfold entry_points.
  repeat (destruct Hcases as [-> | Hcases];
          [ eexists; repeat first [ left; reflexivity | right ] | ]).
  subst k. eexists. repeat first [ left; reflexivity | right ].
Qed.

(** No offset beyond the idle slot has a case in the switch. *)
Lemma handler_for_beyond o :
  0x48 < o -> handler_for MAX_CONSOLES o = None.
Proof.
  intros Ho. unfold handler_for.
  repeat match goal with
         | |- context [o =? ?c] =>
             destruct (Z.eqb_spec o c) as [E | E];
             [ exfalso; subst o; cbv in Ho; discriminate Ho | clear E ]
         end.
  reflexivity.
Qed.

(** [handle_call] on a trap. *)
Lemma handle_call_trap x pc :
  is_xios_call x pc = true ->
  handle_call MAX_CONSOLES pc x =
  if is_ldrbios x pc && (call_offset x pc =? XIOS_SELDSK) then (false, x)
  else match handler_for MAX_CONSOLES (call_offset x pc) with
       | Some h => (true, exec h x)
       | None => (false, x)
       end.
Proof. intros Htrap. unfold handle_call. rewrite Htrap. reflexivity. Qed.

(** X22: which handler [handle_call] runs.  An address that is no trap is
    declined and the state returned as given.  At slot [o] of the full
    table the entry point of that slot runs (boot at 0x00, warm boot at
    0x03, ... idle at 0x48, as [entry_points] lists them) and the answer
    is true.  At slot [o] of the bootstrap table, when the address lies
    below [xios_base_], the same entry point runs, except at select-disk,
    which is declined.  A slot of the bootstrap table that lies above the
    full table's window is declined, whatever the slot: its offset is
    taken from [xios_base_] and has no case.  Every trap is one of
    these. *)
Theorem handle_call_runs_slot_handler x pc :
  let r := handle_call MAX_CONSOLES pc x in
  (is_xios_call x pc = false -> r = (false, x)) /\
  (forall o h, In (o, h) (entry_points MAX_CONSOLES) ->
     pc = xios_base_ x + o -> r = (true, exec h x)) /\
  (forall o h, In (o, h) (entry_points MAX_CONSOLES) ->
     o <= XIOS_SECTRAN -> pc = ldrbios_base_ x + o -> pc < xios_base_ x ->
     r = if o =? XIOS_SELDSK then (false, x) else (true, exec h x)) /\
  (is_slot (ldrbios_base_ x) 0x30 pc ->
     xios_base_ x + 256 <= pc -> pc - xios_base_ x < 65536 -> r = (false, x)) /\
  (is_xios_call x pc = true ->
     exists o h, In (o, h) (entry_points MAX_CONSOLES) /\
       (pc = xios_base_ x + o \/
        (o <= XIOS_SECTRAN /\ pc = ldrbios_base_ x + o /\
         ~ in_window (xios_base_ x) pc))).
Proof.
  cbv zeta. split; [ | split; [ | split; [ | split ] ] ].
  - intros Hno. unfold handle_call. rewrite Hno. reflexivity.
  - intros o h Hin Hpc.
    destruct (entry_points_handler o h Hin) as [Hh [Hr Hm]].
    assert (Htrap : is_xios_call x pc = true).
    { apply is_xios_call_first_match. left. unfold is_slot, in_window.
      replace (pc - xios_base_ x) with o by lia.
      change 0x48 with 72 in *. repeat split; lia. }
    rewrite (handle_call_trap x pc Htrap).
    unfold is_ldrbios, call_offset.
    destruct (Z.ltb_spec pc (xios_base_ x)); [ lia | ].
    destruct (Z.leb_spec (xios_base_ x) pc); [ | lia ].
    replace (pc - xios_base_ x) with o by lia.
    change 0x48 with 72 in *. rewrite u16_small by lia.
    cbn [andb]. rewrite Hh. reflexivity.
  - intros o h Hin Hle Hpc Hlt.
    destruct (entry_points_handler o h Hin) as [Hh [Hr Hm]].
    change XIOS_SECTRAN with 48 in Hle.
    assert (Htrap : is_xios_call x pc = true).
    { apply is_xios_call_first_match. right. unfold is_slot, in_window.
      replace (pc - ldrbios_base_ x) with o by lia.
      change 0x30 with 48. repeat split; lia. }
    rewrite (handle_call_trap x pc Htrap).
    unfold is_ldrbios, call_offset.
    destruct (Z.ltb_spec pc (xios_base_ x)); [ | lia ].
    destruct (Z.leb_spec (xios_base_ x) pc); [ lia | ].
    replace (pc - ldrbios_base_ x) with o by lia.
    rewrite u16_small by lia. cbn [andb].
    destruct (o =? XIOS_SELDSK); [ reflexivity | ].
    rewrite Hh. reflexivity.
  - intros Hs Hge Hlt.
    assert (Htrap : is_xios_call x pc = true).
    { apply is_xios_call_first_match. right. split; [ | exact Hs ].
      unfold in_window. lia. }
    rewrite (handle_call_trap x pc Htrap).
    unfold is_ldrbios, call_offset.
    destruct (Z.ltb_spec pc (xios_base_ x)); [ lia | ].
    destruct (Z.leb_spec (xios_base_ x) pc); [ | lia ].
    rewrite u16_small by lia. cbn [andb].
    rewrite handler_for_beyond; [ reflexivity | ].
    change 0x48 with 72. lia.
  - intros Htrap. apply is_xios_call_first_match in Htrap.
    destruct Htrap as [[Hw [Hm Hle]] | [Hout [Hw [Hm Hle]]]];
      unfold in_window in Hw.
    + destruct (entry_points_complete (pc - xios_base_ x)) as [h Hin];
        [ change 0x48 with 72 in *; lia | exact Hm | ].
      exists (pc - xios_base_ x), h. split; [ exact Hin | left; lia ].
    + destruct (entry_points_complete (pc - ldrbios_base_ x)) as [h Hin];
        [ change 0x30 with 48 in *; change 0x48 with 72; lia | exact Hm | ].
      exists (pc - ldrbios_base_ x), h. split; [ exact Hin | right ].
      change XIOS_SECTRAN with 48. change 0x30 with 48 in Hle.
      split; [ lia | split; [ lia | exact Hout ] ].
Qed.

End DispatchTable.

(** Set-track at the full table's slot 0x1E latches BC; console output at
    the bootstrap table's slot 0x0C is handled, select-disk at its slot
    0x1B is not. *)
Lemma handle_call_runs_slot_handler_run :
  let x := set_cpu (with_BC 0x0007) Stub.xios0 in
  handle_call 8 0xFC1E x = (true, exec do_settrk x) /\
  current_track_ (snd (handle_call 8 0xFC1E x)) = 7 /\
  handle_call 8 0x170C x = (true, exec do_conout x) /\
  handle_call 8 0x171B x = (false, x).
Proof.
  intros x.
  destruct (handle_call_runs_slot_handler 8 x 0xFC1E) as [_ [Hfull _]].
  destruct (handle_call_runs_slot_handler 8 x 0x170C) as [_ [_ [Hboot _]]].
  destruct (handle_call_runs_slot_handler 8 x 0x171B) as [_ [_ [Hsel _]]].
  assert (Htrk : handle_call 8 0xFC1E x = (true, exec do_settrk x)).
  { apply (Hfull XIOS_SETTRK do_settrk); [ | reflexivity ].
    unfold entry_points. do 10 right. left. reflexivity. }
  split; [ exact Htrk | ].
  split; [ rewrite Htrk; reflexivity | ].
  split.
  - apply (Hboot XIOS_CONOUT do_conout);
      [ | apply Z.leb_le; reflexivity | reflexivity | reflexivity ].
    unfold entry_points. do 4 right. left. reflexivity.
  - apply (Hsel XIOS_SELDSK do_seldsk);
      [ | apply Z.leb_le; reflexivity | reflexivity | reflexivity ].
    unfold entry_points. do 9 right. left. reflexivity.
Defined.

(** ** The bootstrap call emulator, for every function number *)

Section BdosFrames.

Context {M D C : Type}.
Context {MemOps : BankedMemory M} {DiskOps : DiskSystem D M}
        {ConOps : ConsoleManager C}.
Implicit Type x : @XIOS M D C.

Lemma ret_word hi lo :
  u16 (Z.lor (Z.shiftl (u8 hi) 8) (u8 lo)) = 256 * u8 hi + u8 lo.
Proof.
  pose proof (u8_range hi). pose proof (u8_range lo).
  rewrite lor_shiftl8 by lia. apply u16_small. lia.
Qed.

(** X4: [do_bdos] returns to its caller for every function number, known
    or not: PC is the word on top of the guest stack and SP moves up by
    2.  No function writes guest memory, the latched track or sector, the
    clock flag, IFF1, IFF2, BC or DE.  The latched disk and the disk
    engine change only in functions 13 and 14, the DMA address only in
    function 26, the consoles only in functions 1, 2, 6, 9 and 11, A only
    in functions 1, 6, 11, 12, 14, 15 and 20, HL only in function 12. *)
Theorem do_bdos_returns x :
  let func := Pair16.get_low (BC (cpu_ x)) in
  let y := exec do_bdos x in
  let sp := SP (cpu_ x) in
  PC (cpu_ y) =
    256 * u8 (fetch_mem (mem_ x) (sp + 1)) + u8 (fetch_mem (mem_ x) sp) /\
  SP (cpu_ y) = u16 (sp + 2) /\
  mem_ y = mem_ x /\
  current_track_ y = current_track_ x /\
  current_sector_ y = current_sector_ x /\
  tick_enabled_ y = tick_enabled_ x /\
  IFF1 (cpu_ y) = IFF1 (cpu_ x) /\ IFF2 (cpu_ y) = IFF2 (cpu_ x) /\
  BC (cpu_ y) = BC (cpu_ x) /\ DE (cpu_ y) = DE (cpu_ x) /\
  (func <> 13 -> func <> 14 ->
   current_disk_ y = current_disk_ x /\ disks_ y = disks_ x) /\
  (func <> 26 -> dma_addr_ y = dma_addr_ x) /\
  (func <> 1 -> func <> 2 -> func <> 6 -> func <> 9 -> func <> 11 ->
   consoles_ y = consoles_ x) /\
  (func <> 1 -> func <> 6 -> func <> 11 -> func <> 12 -> func <> 14 ->
   func <> 15 -> func <> 20 -> AF (cpu_ y) = AF (cpu_ x)) /\
  (func <> 12 -> HL (cpu_ y) = HL (cpu_ x)).
Proof.
  cbv zeta. remember (exec do_bdos x) as y eqn:Hy.
  run_bdos_in Hy; subst y; eqb_facts; proj;
    repeat first [ split | intro ];
    first [ reflexivity | apply ret_word | congruence ].
Qed.

End BdosFrames.

(** ** Disk transfers *)

Section TransferProperties.

Context {M D C : Type}.
Context {MemOps : BankedMemory M} {DiskOps : DiskSystem D M}
        {ConOps : ConsoleManager C}.
Implicit Type x : @XIOS M D C.

Lemma do_write_disk_events x :
  disk_events (trace (exec do_write x)) =
  disk_events (trace x) ++
  [EvSetTrack (current_track_ x); EvSetSector (current_sector_ x);
   EvSetDma (dma_addr_ x); EvDiskWrite].
Proof.
  unfold do_write, disk_setup, set_A.
  autorewrite with act. rewrite do_ret_exec. proj.
  unfold disk_events. rewrite <- !app_assoc, filter_app. reflexivity.
Qed.

(** One latch-writing call: the latches follow [latch_write], and the
    disk engine is not called. *)
Lemma call_latch_effect c x :
  let y := exec (call_latch c) x in
  (current_track_ y, current_sector_ y, dma_addr_ y) =
    latch_write (current_track_ x, current_sector_ x, dma_addr_ x) c /\
  disk_events (trace y) = disk_events (trace x).
Proof.
  cbv zeta. remember (exec (call_latch c) x) as y eqn:Hy.
  destruct c; cbn [call_latch] in Hy.
  1-4: run_handler_in Hy; subst y; proj; split; [ reflexivity | ];
       unfold disk_events; rewrite <- !app_assoc, filter_app; cbn;
       apply app_nil_r.
  autorewrite with act in Hy. rewrite do_bdos_exec in Hy. proj_in Hy.
  change (Pair16.get_low 26) with 26 in Hy.
  change (bdos_function 26 v) with
    (modify (set_dma_addr v) : Act (@XIOS M D C) unit) in Hy.
  run_bdos_in Hy; subst y; proj; (split; [ reflexivity | ]);
    unfold disk_events; rewrite <- !app_assoc, filter_app; cbn;
    apply app_nil_r.
Qed.

Lemma latch_calls_effect cs : forall x,
  let y := latch_calls cs x in
  (current_track_ y, current_sector_ y, dma_addr_ y) =
    latch_writes cs (current_track_ x, current_sector_ x, dma_addr_ x) /\
  disk_events (trace y) = disk_events (trace x).
Proof.
  induction cs as [ | c rest IH ]; intros x; [ split; reflexivity | ].
  cbv zeta.
  change (latch_calls (c :: rest) x) with (latch_calls rest (exec (call_latch c) x)).
  destruct (call_latch_effect c x) as [Hl Hev].
  destruct (IH (exec (call_latch c) x)) as [Hl' Hev'].
  rewrite Hl', Hev', Hl, Hev. split; reflexivity.
Qed.

(** The engine and the memory [do_write] leaves. *)
Lemma do_write_engine x :
  let w := disk_write
             (engine_given (disks_ x) (current_track_ x) (current_sector_ x)
                (dma_addr_ x))
             (mem_ x) in
  disks_ (exec do_write x) = snd (fst w) /\
  mem_ (exec do_write x) = snd w.
Proof.
  cbv zeta. unfold engine_given, do_write, disk_setup, set_A.
  autorewrite with act. rewrite do_ret_exec. proj. split; reflexivity.
Qed.

(** A latch-writing call reaches neither the disk engine nor guest
    memory. *)
Lemma call_latch_engine c x :
  disks_ (exec (call_latch c) x) = disks_ x /\
  mem_ (exec (call_latch c) x) = mem_ x.
Proof.
  remember (exec (call_latch c) x) as y eqn:Hy.
  destruct c; cbn [call_latch] in Hy.
  1-4: run_handler_in Hy; subst y; proj; split; reflexivity.
  autorewrite with act in Hy. rewrite do_bdos_exec in Hy. proj_in Hy.
  change (Pair16.get_low 26) with 26 in Hy.
  change (bdos_function 26 v) with
    (modify (set_dma_addr v) : Act (@XIOS M D C) unit) in Hy.
  run_bdos_in Hy; subst y; proj; split; reflexivity.
Qed.

Lemma latch_calls_engine cs : forall x,
  disks_ (latch_calls cs x) = disks_ x /\ mem_ (latch_calls cs x) = mem_ x.
Proof.
  induction cs as [ | c rest IH ]; intros x; [ split; reflexivity | ].
  change (latch_calls (c :: rest) x) with (latch_calls rest (exec (call_latch c) x)).
  destruct (IH (exec (call_latch c) x)) as [Hd Hm].
  destruct (call_latch_engine c x) as [Hd' Hm'].
  rewrite Hd, Hm, Hd', Hm'. split; reflexivity.
Qed.

(** X5: the latched track, sector and DMA address behave as three
    registers.  Any sequence of home, set-track, set-sector, set-dma and
    BDOS function 26 calls leaves the disk engine and guest memory as they
    were.  [do_read] and [do_write] then hand that engine the last value
    written to each register (home writing track 0, function 26 the DMA
    address, a register never written keeping its value), in the order
    track, sector, DMA address, and ask the transfer of the engine so set:
    the engine and the memory they leave are the ones this transfer
    leaves, and the calls recorded for the engine are these four. *)
Theorem transfer_presents_latches (cs : list LatchCall) x :
  let y := latch_calls cs x in
  let tsd := latch_writes cs (current_track_ x, current_sector_ x, dma_addr_ x) in
  let d3 := engine_given (disks_ x) (fst (fst tsd)) (snd (fst tsd)) (snd tsd) in
  (disks_ y = disks_ x /\ mem_ y = mem_ x) /\
  (disks_ (exec do_read y) = snd (fst (disk_read d3 (mem_ x))) /\
   mem_ (exec do_read y) = snd (disk_read d3 (mem_ x)) /\
   disk_events (trace (exec do_read y)) =
     disk_events (trace x) ++
     [EvSetTrack (fst (fst tsd)); EvSetSector (snd (fst tsd)); EvSetDma (snd tsd);
      EvDiskRead]) /\
  (disks_ (exec do_write y) = snd (fst (disk_write d3 (mem_ x))) /\
   mem_ (exec do_write y) = snd (disk_write d3 (mem_ x)) /\
   disk_events (trace (exec do_write y)) =
     disk_events (trace x) ++
     [EvSetTrack (fst (fst tsd)); EvSetSector (snd (fst tsd)); EvSetDma (snd tsd);
      EvDiskWrite]).
Proof.
  cbv zeta. destruct (latch_calls_effect cs x) as [Hl Hev].
  destruct (latch_calls_engine cs x) as [Hdisks Hmem].
  destruct (do_read_engine (latch_calls cs x)) as [Hrd [Hrm _]].
  destruct (do_write_engine (latch_calls cs x)) as [Hwd Hwm].
  rewrite Hdisks, Hmem in Hrd, Hrm, Hwd, Hwm.
  rewrite do_read_disk_events, do_write_disk_events, Hev, <- Hl.
  cbn [fst snd].
  split; [ split; assumption | ].
  split; (split; [ assumption | split; [ assumption | reflexivity ] ]).
Qed.

(** X6: [do_read] asks the transfer of the engine as it is after the
    three values were handed over, on the guest memory as it is.  The
    status in A is the engine's [int] answer reduced to a byte; memory and
    engine are left as the transfer leaves them, and the return address
    is popped from that memory.  The same holds of [do_write]. *)
Theorem transfer_status x :
  let d3 := disk_set_dma
              (disk_set_sector
                 (disk_set_track (disks_ x) (current_track_ x))
                 (current_sector_ x))
              (dma_addr_ x) in
  let sp := SP (cpu_ x) in
  let r := disk_read d3 (mem_ x) in
  let w := disk_write d3 (mem_ x) in
  let yr := exec do_read x in
  let yw := exec do_write x in
  (Pair16.get_high (AF (cpu_ yr)) = u8 (fst (fst r)) /\
   disks_ yr = snd (fst r) /\ mem_ yr = snd r /\
   PC (cpu_ yr) =
     256 * u8 (fetch_mem (snd r) (sp + 1)) + u8 (fetch_mem (snd r) sp)) /\
  (Pair16.get_high (AF (cpu_ yw)) = u8 (fst (fst w)) /\
   disks_ yw = snd (fst w) /\ mem_ yw = snd w /\
   PC (cpu_ yw) =
     256 * u8 (fetch_mem (snd w) (sp + 1)) + u8 (fetch_mem (snd w) sp)).
Proof.
  cbv zeta. split.
  - remember (exec do_read x) as y eqn:Hy. run_handler_in Hy. subst y. proj.
    rewrite get_high_set_high.
    repeat split; first [ reflexivity | apply ret_word ].
  - remember (exec do_write x) as y eqn:Hy. run_handler_in Hy. subst y. proj.
    rewrite get_high_set_high.
    repeat split; first [ reflexivity | apply ret_word ].
Qed.

(** X7: [do_selmemory] fetches one byte, the fourth of the descriptor BC
    points to, selects the bank it names, and only then pops the return
    address: PC is the word at SP of the memory as banked after the
    switch. *)
Theorem do_selmemory_switches_then_returns x :
  let desc := BC (cpu_ x) in
  let sp := SP (cpu_ x) in
  let bank := u8 (fetch_mem (mem_ x) (desc + 3)) in
  let m := select_bank (mem_ x) bank in
  let y := exec do_selmemory x in
  mem_ y = m /\
  PC (cpu_ y) = 256 * u8 (fetch_mem m (sp + 1)) + u8 (fetch_mem m sp) /\
  SP (cpu_ y) = u16 (sp + 2) /\
  trace y = trace x ++
    [EvFetch (desc + 3); EvSelectBank bank; EvFetch sp; EvFetch (sp + 1)].
Proof.
  cbv zeta. remember (exec do_selmemory x) as y eqn:Hy.
  run_handler_in Hy. subst y. proj. unfold Pair16.get_pair16.
  repeat split; first [ reflexivity | apply ret_word | idtac ].
  rewrite <- !app_assoc. reflexivity.
Qed.

End TransferProperties.

(** Track 7 set and then homed, sector 5, DMA address 0x0100 through
    function 26: both transfers are made by an engine set to track 0,
    sector 5 and DMA address 0x0100. *)
Lemma transfer_presents_latches_run :
  let y := latch_calls [LSetTrk 7; LSetSec 5; LBdosSetDma 0x0100; LHome]
             Stub.xios0 in
  disks_ (exec do_read y) = Stub.mkDisks 4 0 5 0x0100 /\
  disks_ (exec do_write y) = Stub.mkDisks 4 0 5 0x0100.
Proof.
  destruct (transfer_presents_latches
              [LSetTrk 7; LSetSec 5; LBdosSetDma 0x0100; LHome] Stub.xios0)
    as [_ [[Hr _] [Hw _]]].
  split; [ rewrite Hr | rewrite Hw ]; reflexivity.
Defined.

(** ** Console entry points *)

(** Turns the outcomes of boolean tests into propositions. *)
Ltac bool_facts :=
  repeat match goal with
         | H : negb _ = true |- _ => apply negb_true_iff in H
         | H : negb _ = false |- _ => apply negb_false_iff in H
         | H : _ && _ = true |- _ => apply andb_true_iff in H; destruct H
         | H : _ && _ = false |- _ => apply andb_false_iff in H; destruct H
         | H : (_ <=? _) = true |- _ => apply Z.leb_le in H
         | H : (_ <=? _) = false |- _ => apply Z.leb_gt in H
         | H : (_ <? _) = true |- _ => apply Z.ltb_lt in H
         | H : (_ <? _) = false |- _ => apply Z.ltb_ge in H
         | H : (_ =? _) = true |- _ => apply Z.eqb_eq in H
         | H : (_ =? _) = false |- _ => apply Z.eqb_neq in H
         end.

(** Closes a goal by computation, arithmetic or the case of an integer
    test. *)
Ltac finish :=
  first [ reflexivity | lia | congruence
        | match goal with
          | |- context [?a =? ?b] =>
              destruct (Z.eqb_spec a b); first [ reflexivity | lia | congruence ]
          end ].

Section ConsoleProperties.

Context {M D C : Type}.
Context {MemOps : BankedMemory M} {DiskOps : DiskSystem D M}
        {ConOps : ConsoleManager C}.
Variable MAX_CONSOLES : Z.
Implicit Type x : @XIOS M D C.

(** X8: [do_polldevice], device number in C.  Devices 0 to 4 (printer,
    console output) are always ready (A = 0xFF) and no console is asked.
    Devices 5 to 8 are the input of consoles 0 to 3: A is 0xFF when the
    console exists and its status is not 0, and 0 otherwise; a console
    that does not exist is not asked.  Devices 9 to 255 are never ready
    (A = 0). *)
Theorem do_polldevice_table x :
  let dev := Pair16.get_low (BC (cpu_ x)) in
  let con := dev - 5 in
  let y := exec do_polldevice x in
  let a := Pair16.get_high (AF (cpu_ y)) in
  (dev <= 4 -> a = 0xFF /\ consoles_ y = consoles_ x) /\
  (5 <= dev <= 8 -> console_get (consoles_ x) con = false ->
     a = 0 /\ consoles_ y = consoles_ x) /\
  (5 <= dev <= 8 -> console_get (consoles_ x) con = true ->
     a = (if fst (const_status (consoles_ x) con) =? 0 then 0 else 0xFF) /\
     consoles_ y = snd (const_status (consoles_ x) con)) /\
  (9 <= dev -> a = 0 /\ consoles_ y = consoles_ x).
Proof.
  cbv zeta. pose proof (get_low_range (BC (cpu_ x))) as Hdev.
  remember (exec do_polldevice x) as y eqn:Hy.
  run_handler_in Hy; subst y; proj; rewrite get_high_set_high;
    autorewrite with act in *; bool_facts;
    repeat first [ split | intro ];
    finish.
Qed.

(** X9: console output dispatched by [handle_call] with the program
    counter at the trapped address.  From the bootstrap table (an address
    below [xios_base_]) the character in C goes to console 0 whatever D
    holds; from the full table it goes to the console D names.  A
    character for a console that does not exist is dropped.  A is left
    alone. *)
Theorem conout_console x pc :
  PC (cpu_ x) = pc ->
  fst (handle_call MAX_CONSOLES pc x) = true ->
  call_offset x pc = XIOS_CONOUT ->
  let console :=
    if pc <? xios_base_ x then 0 else Pair16.get_high (DE (cpu_ x)) in
  let ch := Pair16.get_low (BC (cpu_ x)) in
  let y := snd (handle_call MAX_CONSOLES pc x) in
  consoles_ y =
    (if console_get (consoles_ x) console
     then write_char (consoles_ x) console ch else consoles_ x) /\
  console_calls (trace y) =
    console_calls (trace x) ++
    (if console_get (consoles_ x) console then [EvWriteChar console ch] else []) /\
  AF (cpu_ y) = AF (cpu_ x).
Proof.
  intros Hpc. unfold handle_call.
  destruct (negb (is_xios_call x pc)); [ discriminate | ].
  destruct (is_ldrbios x pc && (call_offset x pc =? XIOS_SELDSK));
    [ discriminate | ].
  intros _ Hoff. rewrite Hoff.
  change (handler_for MAX_CONSOLES XIOS_CONOUT) with
    (Some (do_conout : Act (@XIOS M D C) unit)).
  cbn [snd]. remember (exec do_conout x) as y eqn:Hy.
  unfold do_conout, reg, con_get, when in Hy. autorewrite with act in Hy.
  unfold Pair16.get_pair16 in Hy. rewrite Hpc in Hy.
  replace (xios_base_ x <=? pc) with (negb (pc <? xios_base_ x)) in Hy
    by (destruct (Z.ltb_spec pc (xios_base_ x)), (Z.leb_spec (xios_base_ x) pc);
        first [ reflexivity | lia ]).
  destruct (pc <? xios_base_ x); cbn [negb] in Hy |- *;
    match type of Hy with
    | context [if ?b then _ else _] => destruct b
    end;
    autorewrite with act in Hy; rewrite do_ret_exec in Hy; proj_in Hy;
    subst y; proj; unfold console_calls;
    rewrite <- ?app_assoc, ?filter_app; cbn [filter is_console_call app];
    rewrite ?app_nil_r; repeat split.
Qed.

(** X10: console status and console input for the console D names.  When
    that console does not exist, status answers A = 0 and input answers
    A = 0x1A, and no console is touched.  When it exists, A is the byte
    the console answers. *)
Theorem console_status_and_input x :
  let con := Pair16.get_high (DE (cpu_ x)) in
  let c := consoles_ x in
  let ys := exec do_const x in
  let yi := exec do_conin x in
  (console_get c con = false ->
     Pair16.get_high (AF (cpu_ ys)) = 0 /\ consoles_ ys = c /\
     Pair16.get_high (AF (cpu_ yi)) = 0x1A /\ consoles_ yi = c) /\
  (console_get c con = true ->
     Pair16.get_high (AF (cpu_ ys)) = u8 (fst (const_status c con)) /\
     consoles_ ys = snd (const_status c con) /\
     Pair16.get_high (AF (cpu_ yi)) = u8 (fst (read_char c con)) /\
     consoles_ yi = snd (read_char c con)).
Proof.
  cbv zeta.
  remember (exec do_const x) as ys eqn:Hs. remember (exec do_conin x) as yi eqn:Hi.
  run_handler_in Hs; run_handler_in Hi; subst ys yi; proj;
    rewrite ?get_high_set_high;
    repeat first [ split | intro ]; first [ reflexivity | congruence ].
Qed.

(** No console exists: the consoles stay as they are through any handler
    but system-init. *)
Lemma handlers_without_console o h x :
  (forall i, console_get (consoles_ x) i = false) ->
  handler_for MAX_CONSOLES o = Some h ->
  console_calls (trace (exec h x)) = console_calls (trace x).
Proof.
  intros Hnone. unfold handler_for.
  repeat match goal with
         | |- (if ?b then _ else _) = Some _ -> _ => destruct b
         end;
    intros Hh; inversion Hh; subst h; clear Hh;
    remember (exec _ x) as y eqn:Hy; run_handler_in Hy; subst y; proj;
    repeat match goal with
           | H : console_get _ _ = true |- _ =>
               proj_in H; rewrite Hnone in H; discriminate H
           end;
    try match goal with
        | H : fst (ret false _) = true |- _ => discriminate H
        end;
    unfold console_calls; rewrite <- ?app_assoc, ?filter_app;
    cbn [filter is_console_call app]; rewrite ?app_nil_r; reflexivity.
Qed.

(** X11: a console that does not exist is never used.  When
    [ConsoleManager::get] answers null for every index, neither
    [handle_call], at any address, nor [do_bdos], for any function
    number, calls a console: each console access is behind a test of the
    pointer. *)
Theorem null_console_never_used x pc :
  (forall i, console_get (consoles_ x) i = false) ->
  console_calls (trace (snd (handle_call MAX_CONSOLES pc x))) =
    console_calls (trace x) /\
  console_calls (trace (exec do_bdos x)) = console_calls (trace x).
Proof.
  intros Hnone. split.
  - apply (handle_call_cases MAX_CONSOLES
             (fun y => console_calls (trace y) = console_calls (trace x)));
      [ reflexivity | ].
    intros h Hh. apply (handlers_without_console _ _ _ Hnone Hh).
  - remember (exec do_bdos x) as y eqn:Hy.
    run_bdos_in Hy; subst y; proj;
      repeat match goal with
             | H : console_get _ _ = true |- _ =>
                 proj_in H; rewrite Hnone in H; discriminate H
             end;
      try match goal with
          | H : fst (ret false _) = true |- _ => discriminate H
          end;
      unfold console_calls; rewrite <- ?app_assoc, ?filter_app;
      cbn [filter is_console_call app]; rewrite ?app_nil_r; reflexivity.
Qed.

End ConsoleProperties.

(** A character sent through the bootstrap table with D = 5: it goes to
    console 0. *)
Lemma conout_console_bootstrap :
  let x := set_cpu (fun r => with_PC 0x170C (with_DE 0x0500 (with_BC 0x0041 r)))
             Stub.xios0 in
  PC (cpu_ x) = 0x170C /\
  fst (handle_call 8 0x170C x) = true /\
  call_offset x 0x170C = XIOS_CONOUT /\
  Stub.output (consoles_ (snd (handle_call 8 0x170C x))) = [(0, 0x41)].
Proof.
  intros x. split; [ reflexivity | split; [ reflexivity | split; [ reflexivity | ] ] ].
  destruct (conout_console 8 x 0x170C eq_refl eq_refl eq_refl) as [Hc _].
  rewrite Hc. reflexivity.
Defined.

(** Without any console the emulator's print-string writes nothing. *)
Lemma null_console_never_used_run :
  let x := set_consoles (Stub.mkConsoles 0 [])
             (set_cpu (fun r => with_DE 0x0200 (with_BC 9 r)) Stub.xios0) in
  (forall i, console_get (consoles_ x) i = false) /\
  console_calls (trace (exec do_bdos x)) = [].
Proof.
  intros x.
  assert (Hnone : forall i, console_get (consoles_ x) i = false).
  { intros i. cbn. destruct (Z.leb_spec 0 i), (Z.ltb_spec i 0);
      first [ reflexivity | lia ]. }
  split; [ exact Hnone | ].
  destruct (null_console_never_used 8 x 0 Hnone) as [_ Hb]. exact Hb.
Defined.

(** ** Console functions of the bootstrap call emulator *)

Section BdosConsole.

Context {M D C : Type}.
Context {MemOps : BankedMemory M} {DiskOps : DiskSystem D M}
        {ConOps : ConsoleManager C}.
Implicit Type x : @XIOS M D C.
Local Abbreviation State := (@XIOS M D C).

Lemma bdos_function_1 de :
  bdos_function 1 de =
  (con <- con_get 0 ;;
   if con then
     c <- con_read_char 0 ;;
     set_A (u8 c) ;; con_write_char 0 (u8 c)
   else set_A 0x1A : Act State unit)%act.
Proof. reflexivity. Qed.

Lemma bdos_function_6 de :
  bdos_function 6 de =
  (if Z.land de 0xFF =? 0xFF then
     ready <- con_ready 0 ;;
     if ready then c <- con_read_char 0 ;; set_A c else set_A 0
   else
     con <- con_get 0 ;;
     when con (con_write_char 0 (Z.land de 0xFF)) : Act State unit)%act.
Proof. reflexivity. Qed.

(** X12: function 1 of [do_bdos] (console input) reads one character
    from console 0, answers it in A as a byte and writes that same byte
    back to console 0.  Without console 0 it answers A = 0x1A and uses no
    console. *)
Theorem do_bdos_console_input_echo x :
  Pair16.get_low (BC (cpu_ x)) = 1 ->
  let c := consoles_ x in
  let ch := u8 (fst (read_char c 0)) in
  let y := exec do_bdos x in
  (console_get c 0 = true ->
     Pair16.get_high (AF (cpu_ y)) = ch /\
     consoles_ y = write_char (snd (read_char c 0)) 0 ch /\
     console_calls (trace y) =
       console_calls (trace x) ++ [EvReadChar 0; EvWriteChar 0 ch]) /\
  (console_get c 0 = false ->
     Pair16.get_high (AF (cpu_ y)) = 0x1A /\ consoles_ y = c /\
     console_calls (trace y) = console_calls (trace x)).
Proof.
  intros Hfunc. cbv zeta. remember (exec do_bdos x) as y eqn:Hy.
  rewrite do_bdos_exec, Hfunc, bdos_function_1 in Hy.
  run_bdos_in Hy; subst y; proj; rewrite get_high_set_high;
    unfold console_calls; rewrite <- ?app_assoc, ?filter_app;
    cbn [filter is_console_call app]; rewrite ?app_nil_r;
    repeat match goal with
           | H : console_get _ _ = _ |- _ => proj_in H
           end;
    repeat first [ split | intro ];
    first [ reflexivity | congruence | apply Z.mod_mod; lia ].
Qed.

(** X13: function 6 of [do_bdos] (direct console I/O), E being the low
    byte of DE.  With E = 0xFF it is an input that does not wait: console
    0 is asked for its status, and only when that is not 0 is a character
    read and answered in A; otherwise, and without console 0, A = 0.
    With any other E it writes E to console 0, if there is one, and
    leaves A alone; the byte 0xFF is therefore never written. *)
Theorem do_bdos_direct_console_io x :
  Pair16.get_low (BC (cpu_ x)) = 6 ->
  let c := consoles_ x in
  let e := Z.land (DE (cpu_ x)) 0xFF in
  let c1 := snd (const_status c 0) in
  let ready := console_get c 0 && negb (fst (const_status c 0) =? 0) in
  let y := exec do_bdos x in
  (e <> 0xFF ->
     AF (cpu_ y) = AF (cpu_ x) /\
     consoles_ y = (if console_get c 0 then write_char c 0 e else c) /\
     console_calls (trace y) =
       console_calls (trace x) ++
       (if console_get c 0 then [EvWriteChar 0 e] else [])) /\
  (e = 0xFF ->
     Pair16.get_high (AF (cpu_ y)) =
       (if ready then u8 (fst (read_char c1 0)) else 0) /\
     console_calls (trace y) =
       console_calls (trace x) ++
       (if console_get c 0
        then EvConstStatus 0 :: (if ready then [EvReadChar 0] else [])
        else [])).
Proof.
  intros Hfunc. cbv zeta. remember (exec do_bdos x) as y eqn:Hy.
  rewrite do_bdos_exec, Hfunc, bdos_function_6 in Hy.
  run_bdos_in Hy; subst y; proj; rewrite ?get_high_set_high;
    unfold console_calls; rewrite <- ?app_assoc, ?filter_app;
    cbn [filter is_console_call app]; rewrite ?app_nil_r;
    autorewrite with act in *;
    repeat match goal with
           | H : _ = _ |- _ => progress proj_in H
           end;
    repeat match goal with
           | H : console_get _ _ = _ |- _ => rewrite H
           | H : negb _ = _ |- _ => rewrite H
           end;
    cbn [andb]; rewrite ?app_nil_r; eqb_facts;
    repeat first [ split | intro ];
    first [ reflexivity | congruence ].
Qed.

End BdosConsole.

(** Function 1 on a console that answers 0x1A: A = 0x1A, echoed. *)
Lemma do_bdos_console_input_echo_run :
  let x := set_cpu (with_BC 1) Stub.xios0 in
  Pair16.get_low (BC (cpu_ x)) = 1 /\
  console_get (consoles_ x) 0 = true /\
  Pair16.get_high (AF (cpu_ (exec do_bdos x))) = 0x1A /\
  Stub.output (consoles_ (exec do_bdos x)) = [(0, 0x1A)].
Proof.
  intros x. split; [ reflexivity | split; [ reflexivity | ] ].
  destruct (do_bdos_console_input_echo x eq_refl) as [Hpresent _].
  destruct (Hpresent eq_refl) as [HA [Hc _]].
  split; [ rewrite HA | rewrite Hc ]; reflexivity.
Defined.

(** Function 6 with E = 0x42: the byte is written to console 0. *)
Lemma do_bdos_direct_console_io_run :
  let x := set_cpu (fun r => with_DE 0x0042 (with_BC 6 r)) Stub.xios0 in
  Pair16.get_low (BC (cpu_ x)) = 6 /\
  Stub.output (consoles_ (exec do_bdos x)) = [(0, 0x42)].
Proof.
  intros x. split; [ reflexivity | ].
  destruct (do_bdos_direct_console_io x eq_refl) as [Hout _].
  destruct Hout as [_ [Hc _]]; [ cbn; lia | ].
  rewrite Hc. reflexivity.
Defined.

(** ** The call counter of the emulator *)

Section BdosCounter.

Context {M D C : Type}.
Context {MemOps : BankedMemory M} {DiskOps : DiskSystem D M}
        {ConOps : ConsoleManager C}.
Implicit Type x : @XIOS M D C.

Lemma do_bdos_call_count x :
  call_count (exec do_bdos x) =
  if call_count x <? 50 then call_count x + 1 else call_count x.
Proof.
  remember (exec do_bdos x) as y eqn:Hy.
  run_bdos_in Hy; subst y; proj; reflexivity.
Qed.

Lemma bdos_calls_call_count rs : forall x,
  call_count x <= 50 ->
  call_count (bdos_calls rs x) = Z.min 50 (call_count x + Z.of_nat (length rs)).
Proof.
  induction rs as [ | r rest IH ]; intros x Hx.
  - cbn [bdos_calls fold_left length]. lia.
  - change (bdos_calls (r :: rest) x) with
      (bdos_calls rest (exec do_bdos (set_cpu (fun _ => r) x))).
    pose proof (do_bdos_call_count (set_cpu (fun _ => r) x)) as Hstep.
    proj_in Hstep.
    destruct (Z.ltb_spec (call_count x) 50);
      rewrite IH by lia; rewrite Hstep; cbn [length]; lia.
Qed.

(** X14: the counter behind the diagnostic line of [do_bdos] counts the
    calls up to 50 and then stays: from a counter of at most 50 (it
    starts at 0), after [n] calls, whatever their function numbers and
    registers, it is the smaller of 50 and the start plus [n]. *)
Theorem bdos_call_count_saturates (rs : list qkz80_regs) x :
  call_count x <= 50 ->
  call_count (bdos_calls rs x) = Z.min 50 (call_count x + Z.of_nat (length rs)).
Proof. apply bdos_calls_call_count. Qed.

End BdosCounter.

(** Three calls from the constructed state. *)
Lemma bdos_call_count_saturates_run :
  call_count Stub.xios0 <= 50 /\
  call_count (bdos_calls [Stub.regs0; Stub.regs0; Stub.regs0] Stub.xios0) = 3.
Proof.
  split; [ cbn; lia | ].
  rewrite (bdos_call_count_saturates
             [Stub.regs0; Stub.regs0; Stub.regs0] Stub.xios0); cbn; lia.
Defined.

(** * Further properties of the console queue *)

Lemma byte_val_range b : 0 <= byte_val b < 256.
Proof.
  unfold byte_val. pose proof (Strings.Byte.to_N_bounded b). lia.
Qed.

Section QueueTransferProperties.

Variable CAPACITY : Z.
Implicit Type q : ConsoleQueue.

Lemma size_mkQueue l : size (mkQueue l) = Z.of_nat (length l).
Proof. reflexivity. Qed.

Lemma write_some_count data : forall q,
  size q <= CAPACITY ->
  fst (write_some CAPACITY data q) =
  Z.min (Z.of_nat (length data)) (CAPACITY - size q).
Proof.
  induction data as [ | ch rest IH ]; intros q Hq.
  - cbn. lia.
  - cbn [write_some length]. destruct (Z.ltb_spec (size q) CAPACITY) as [Hlt | Hge].
    + specialize (IH (push ch q)). rewrite size_push in IH.
      destruct (write_some CAPACITY rest (push ch q)) as [n q'].
      cbn [fst] in *. rewrite IH by lia. lia.
    + cbn [fst]. lia.
Qed.

(** X15: [write_some] takes as many of the offered bytes as there is
    room for: on a queue within its capacity the count it answers is the
    smaller of the number offered and the free space, the queue gains
    exactly that many bytes, the first ones offered, at its back, and
    what was queued stays in front. *)
Theorem write_some_takes_what_fits (data : list Byte.byte) q :
  size q <= CAPACITY ->
  let r := write_some CAPACITY data q in
  fst r = Z.min (Z.of_nat (length data)) (CAPACITY - size q) /\
  queue_ (snd r) = queue_ q ++ firstn (Z.to_nat (fst r)) data /\
  size (snd r) = size q + fst r.
Proof.
  intros Hq r. subst r.
  pose proof (write_some_count data q Hq) as Hcount.
  destruct (write_some_spec CAPACITY data q) as [Hn [Hqueue _]].
  split; [ exact Hcount | split; [ exact Hqueue | ] ].
  unfold size in *. rewrite Hqueue, length_app, length_firstn. lia.
Qed.

Lemma read_some_loop_firstn n : forall l,
  read_some_loop n l = (firstn n l, skipn n l).
Proof.
  induction n as [ | n IH ]; intros l; [ reflexivity | ].
  destruct l as [ | ch rest ]; [ reflexivity | ].
  cbn [read_some_loop firstn skipn]. rewrite IH. reflexivity.
Qed.

(** X16: [read_some] answers the first [max_len] bytes of the queue, or
    all of them when there are fewer, in queue order, and leaves the rest
    queued; asked for 0 bytes, or on an empty queue, it answers none and
    changes nothing. *)
Theorem read_some_takes_front (max_len : Z) q :
  let r := read_some max_len q in
  fst r = firstn (Z.to_nat max_len) (queue_ q) /\
  queue_ (snd r) = skipn (Z.to_nat max_len) (queue_ q) /\
  Z.of_nat (length (fst r)) = Z.min (Z.max 0 max_len) (size q) /\
  (max_len <= 0 \/ empty q = true -> r = ([], q)).
Proof.
  cbv zeta. unfold read_some. rewrite read_some_loop_firstn. cbn [fst snd queue_].
  split; [ reflexivity | split; [ reflexivity | split ] ].
  - rewrite length_firstn. unfold size. lia.
  - intros [Hn | He].
    + replace (Z.to_nat max_len) with O by lia. destruct q. reflexivity.
    + destruct q as [[ | ch rest]]; [ | discriminate He ].
      cbn [queue_]. rewrite firstn_nil, skipn_nil. reflexivity.
Qed.

(** X17: what [write_some] puts in, [read_some] gives back.  When the
    queue has room for all of [data], [write_some] takes all of it, and a
    [read_some] of everything queued answers the old contents followed by
    [data] and leaves the queue empty. *)
Theorem write_some_read_some (data : list Byte.byte) q :
  size q + Z.of_nat (length data) <= CAPACITY ->
  let w := write_some CAPACITY data q in
  fst w = Z.of_nat (length data) /\
  read_some (size (snd w)) (snd w) = (queue_ q ++ data, ConsoleQueue_new).
Proof.
  intros Hroom w. subst w. pose proof (size_nonneg q) as Hs.
  assert (Hq : size q <= CAPACITY) by lia.
  pose proof (write_some_count data q Hq) as Hcount.
  destruct (write_some_spec CAPACITY data q) as [_ [Hqueue _]].
  assert (Hall : fst (write_some CAPACITY data q) = Z.of_nat (length data)) by lia.
  split; [ exact Hall | ].
  rewrite Hall, Nat2Z.id, firstn_all in Hqueue.
  unfold read_some. rewrite read_some_loop_firstn.
  unfold size. rewrite Nat2Z.id, firstn_all, skipn_all, Hqueue. reflexivity.
Qed.

Lemma write_some_at_most data : forall q,
  fst (write_some CAPACITY data q) <= Z.of_nat (length data).
Proof.
  induction data as [ | ch rest IH ]; intros q; [ cbn; lia | ].
  cbn [write_some length]. destruct (size q <? CAPACITY); [ | cbn; lia ].
  specialize (IH (push ch q)).
  destruct (write_some CAPACITY rest (push ch q)) as [n q']. cbn [fst] in *. lia.
Qed.

Lemma try_write_snd ch q :
  snd (try_write CAPACITY ch q) = if CAPACITY <=? size q then q else push ch q.
Proof. unfold try_write. destruct (CAPACITY <=? size q); reflexivity. Qed.

Lemma try_write_all_cons ch rest q :
  try_write_all CAPACITY (ch :: rest) q =
  try_write_all CAPACITY rest (snd (try_write CAPACITY ch q)).
Proof. reflexivity. Qed.

Lemma try_write_all_full data : forall q,
  CAPACITY <= size q -> try_write_all CAPACITY data q = q.
Proof.
  induction data as [ | ch rest IH ]; intros q Hfull; [ reflexivity | ].
  rewrite try_write_all_cons, try_write_snd.
  destruct (Z.leb_spec CAPACITY (size q)); [ apply IH; assumption | lia ].
Qed.

Lemma try_write_all_spec data : forall q,
  snd (write_some CAPACITY data q) = try_write_all CAPACITY data q.
Proof.
  induction data as [ | ch rest IH ]; intros q; [ reflexivity | ].
  rewrite try_write_all_cons, try_write_snd. cbn [write_some].
  destruct (Z.ltb_spec (size q) CAPACITY) as [Hlt | Hge],
           (Z.leb_spec CAPACITY (size q)) as [Hle | Hgt]; try lia.
  - specialize (IH (push ch q)).
    destruct (write_some CAPACITY rest (push ch q)) as [n q'].
    cbn [snd] in *. exact IH.
  - cbn [snd]. symmetry. apply try_write_all_full. exact Hge.
Qed.

Lemma try_read_n_spec n : forall q,
  try_read_n n q =
  (map byte_val (firstn n (queue_ q)), mkQueue (skipn n (queue_ q))).
Proof.
  induction n as [ | n IH ]; intros q.
  - destruct q. reflexivity.
  - cbn [try_read_n]. unfold try_read.
    destruct q as [[ | ch rest]]; cbn [queue_].
    + rewrite IH. cbn [queue_ firstn skipn map]. rewrite firstn_nil, skipn_nil.
      reflexivity.
    + rewrite IH. cbn [queue_ firstn skipn map].
      rewrite byte_val_not_sentinel. reflexivity.
Qed.

(** X18: the bulk calls are the single calls repeated.  [write_some]
    leaves the queue as a [try_write] of each offered byte in turn does,
    and answers the number of those that succeed; [read_some] of
    [max_len] bytes answers what [max_len] calls of [try_read] answer,
    leaving out their -1, with the same queue left. *)
Theorem bulk_is_repeated_single (data : list Byte.byte) (max_len : Z) q :
  snd (write_some CAPACITY data q) = try_write_all CAPACITY data q /\
  fst (write_some CAPACITY data q) =
    size (try_write_all CAPACITY data q) - size q /\
  map byte_val (fst (read_some max_len q)) =
    fst (try_read_n (Z.to_nat max_len) q) /\
  snd (read_some max_len q) = snd (try_read_n (Z.to_nat max_len) q).
Proof.
  split; [ apply try_write_all_spec | split; [ | split ] ].
  - rewrite <- try_write_all_spec.
    destruct (write_some_spec CAPACITY data q) as [Hn [Hqueue _]].
    pose proof (write_some_at_most data q) as Hle.
    unfold size. rewrite Hqueue, length_app, length_firstn. lia.
  - rewrite try_read_n_spec. unfold read_some. rewrite read_some_loop_firstn.
    reflexivity.
  - rewrite try_read_n_spec. unfold read_some. rewrite read_some_loop_firstn.
    reflexivity.
Qed.

(** X19: what the observers say agrees with what the single calls do.
    On a queue within its capacity (a [size_t]): [full()] holds exactly
    when [space()] is 0 and exactly when [try_write] is refused; [empty()]
    holds exactly when [available()] is 0 and exactly when [try_read]
    answers -1; and [try_read] answers -1 or a value from 0 to 255, so
    the -1 is no byte. *)
Theorem observers_agree_with_calls (ch : Byte.byte) q :
  0 <= CAPACITY < 2 ^ 64 ->
  size q <= CAPACITY ->
  (full CAPACITY q = true <-> space CAPACITY q = 0) /\
  (full CAPACITY q = negb (fst (try_write CAPACITY ch q))) /\
  (empty q = true <-> available q = 0) /\
  (empty q = true <-> fst (try_read q) = -1) /\
  -1 <= fst (try_read q) < 256.
Proof.
  intros Hcap Hq. pose proof (size_nonneg q) as Hs.
  split; [ | split; [ | split; [ | split ] ] ].
  - unfold full, space, size_t. rewrite Z.mod_small by lia.
    rewrite Z.leb_le. lia.
  - unfold full, try_write. destruct (CAPACITY <=? size q); reflexivity.
  - unfold empty, available, size. destruct (queue_ q); cbn [length];
      split; intros He; first [ reflexivity | discriminate | lia ].
  - unfold empty, try_read. destruct (queue_ q) as [ | b rest ]; cbn [fst].
    + split; reflexivity.
    + pose proof (byte_val_nonneg b) as Hb. split; intros He; [ discriminate | lia ].
  - unfold try_read. destruct (queue_ q) as [ | b rest ]; cbn [fst]; [ lia | ].
    pose proof (byte_val_range b). lia.
Qed.

End QueueTransferProperties.

(** Five bytes offered to a queue of capacity 4 that holds one. *)
Lemma write_some_takes_what_fits_run :
  let q := mkQueue [Init.Byte.x61] in
  let data := [Init.Byte.x62; Init.Byte.x63; Init.Byte.x64; Init.Byte.x65;
               Init.Byte.x66] in
  size q <= 4 /\
  fst (write_some 4 data q) = 3 /\
  queue_ (snd (write_some 4 data q)) =
    [Init.Byte.x61; Init.Byte.x62; Init.Byte.x63; Init.Byte.x64].
Proof.
  intros q data. split; [ cbn; lia | ].
  destruct (write_some_takes_what_fits 4 data q) as [Hc [Hq _]]; [ cbn; lia | ].
  split; [ rewrite Hc | rewrite Hq ]; reflexivity.
Defined.

(** Two bytes through a queue of capacity 4 that holds one. *)
Lemma write_some_read_some_run :
  let q := mkQueue [Init.Byte.x61] in
  let data := [Init.Byte.x62; Init.Byte.x63] in
  size q + Z.of_nat (length data) <= 4 /\
  read_some 3 (snd (write_some 4 data q)) =
    ([Init.Byte.x61; Init.Byte.x62; Init.Byte.x63], ConsoleQueue_new).
Proof.
  intros q data. split; [ cbn; lia | ].
  destruct (write_some_read_some 4 data q) as [_ Hr]; [ cbn; lia | ].
  exact Hr.
Defined.

(** A full queue of capacity 1. *)
Lemma observers_agree_with_calls_run :
  let q := mkQueue [Init.Byte.x61] in
  (0 <= 1 < 2 ^ 64 /\ size q <= 1) /\
  full 1 q = true /\ space 1 q = 0 /\
  fst (try_write 1 Init.Byte.x62 q) = false.
Proof.
  intros q.
  assert (Hcap : 0 <= 1 < 2 ^ 64) by lia.
  assert (Hq : size q <= 1) by (cbn; lia).
  split; [ split; assumption | ].
  destruct (observers_agree_with_calls 1 Init.Byte.x62 q Hcap Hq)
    as [Hfull [Hwrite _]].
  split; [ reflexivity | split; [ apply Hfull; reflexivity | ] ].
  apply negb_true_iff. rewrite <- Hwrite. reflexivity.
Defined.

(** * The SPR image of mkspr *)

Lemma vsize_app v w : vsize (v ++ w) = vsize v + vsize w.
Proof. unfold vsize. rewrite length_app. lia. Qed.

Lemma vsize_repeat n : vsize (repeat 0 n) = Z.of_nat n.
Proof. unfold vsize. rewrite repeat_length. reflexivity. Qed.

Lemma push_zeros_repeat n : forall v, push_zeros n v = v ++ repeat 0 n.
Proof.
  induction n as [ | n IH ]; intros v.
  - cbn. rewrite app_nil_r. reflexivity.
  - cbn [push_zeros repeat]. rewrite IH, <- app_assoc. reflexivity.
Qed.

Lemma spr_header_bytes code_size bufsize :
  spr_header code_size bufsize =
  [0; Z.land code_size 0xFF; Z.land (Z.shiftr code_size 8) 0xFF; 0;
   Z.land bufsize 0xFF; Z.land (Z.shiftr bufsize 8) 0xFF] ++ repeat 0 122.
Proof. reflexivity. Qed.

Lemma vsize_spr_header code_size bufsize :
  vsize (spr_header code_size bufsize) = 128.
Proof. reflexivity. Qed.

(** The last loop ends within 127 rounds. *)
Lemma pad_until_multiple fuel : forall v,
  (Z.to_nat ((128 - vsize v mod 128) mod 128) <= fuel)%nat ->
  pad_until fuel (fun w => vsize w mod 128 =? 0) v =
  Some (v ++ repeat 0 (Z.to_nat ((128 - vsize v mod 128) mod 128))).
Proof.
  induction fuel as [ | fuel IH ]; intros v Hfuel.
  - cbn [pad_until]. destruct (Z.eqb_spec (vsize v mod 128) 0) as [Hz | Hnz].
    + rewrite Hz. cbn. rewrite app_nil_r. reflexivity.
    + exfalso. revert Hfuel Hnz. generalize (vsize v). intros s.
      Z.div_mod_to_equations. lia.
  - cbn [pad_until]. destruct (Z.eqb_spec (vsize v mod 128) 0) as [Hz | Hnz].
    + rewrite Hz. cbn. rewrite app_nil_r. reflexivity.
    + rewrite IH.
      * rewrite vsize_app. change (vsize [0]) with 1.
        replace (Z.to_nat ((128 - vsize v mod 128) mod 128))
          with (S (Z.to_nat ((128 - (vsize v + 1) mod 128) mod 128))).
        { cbn [repeat]. rewrite <- app_assoc. reflexivity. }
        revert Hnz. generalize (vsize v). intros s.
        Z.div_mod_to_equations. lia.
      * rewrite vsize_app. change (vsize [0]) with 1.
        revert Hfuel Hnz. generalize (vsize v). intros s.
        Z.div_mod_to_equations. lia.
Qed.

Lemma byte_pair v :
  Z.land v 0xFF + 256 * Z.land (Z.shiftr v 8) 0xFF = v mod 65536.
Proof.
  change 0xFF with (Z.ones 8). rewrite !Z.land_ones by lia.
  rewrite Z.shiftr_div_pow2 by lia. change (2 ^ 8) with 256.
  Z.div_mod_to_equations. lia.
Qed.

(** The image in closed form, whenever the fuel covers the padding. *)
Lemma spr_image_closed fuel code bufsize :
  (127 <= fuel)%nat ->
  spr_image fuel code bufsize =
  Some (spr_header (vsize code) bufsize ++ repeat 0 128 ++ code ++
        repeat 0 (spr_padding (vsize code))).
Proof.
  intros Hfuel. unfold spr_image. rewrite push_zeros_repeat.
  assert (H256 : vsize (spr_header (vsize code) bufsize ++ repeat 0 128) = 256)
    by (rewrite vsize_app, vsize_spr_header, vsize_repeat; reflexivity).
  assert (Hfirst : pad_until fuel (fun v => negb (vsize v <? 256))
                     (spr_header (vsize code) bufsize ++ repeat 0 128) =
                   Some (spr_header (vsize code) bufsize ++ repeat 0 128)).
  { destruct fuel; cbn [pad_until]; rewrite H256; reflexivity. }
  rewrite Hfirst.
  assert (Hsize : vsize ((spr_header (vsize code) bufsize ++ repeat 0 128) ++ code)
                  = 256 + vsize code) by (rewrite vsize_app, H256; reflexivity).
  assert (Hpad : Z.to_nat ((128 - vsize ((spr_header (vsize code) bufsize ++
                                            repeat 0 128) ++ code) mod 128) mod 128)
                 = spr_padding (vsize code)).
  { rewrite Hsize. unfold spr_padding. f_equal.
    generalize (vsize code). intros s. Z.div_mod_to_equations. lia. }
  rewrite pad_until_multiple.
  - rewrite Hpad, <- !app_assoc. reflexivity.
  - rewrite Hpad. unfold spr_padding.
    generalize (vsize code). intros s.
    assert (Z.to_nat ((128 - s mod 128) mod 128) <= 127)%nat
      by (Z.div_mod_to_equations; lia).
    lia.
Qed.

(** The last loop does not end in fewer rounds than bytes are missing. *)
Lemma pad_until_short fuel : forall v,
  (fuel < Z.to_nat ((128 - vsize v mod 128) mod 128))%nat ->
  pad_until fuel (fun w => vsize w mod 128 =? 0) v = None.
Proof.
  induction fuel as [ | fuel IH ]; intros v Hfuel.
  - cbn [pad_until]. destruct (Z.eqb_spec (vsize v mod 128) 0) as [Hz | Hnz];
      [ | reflexivity ].
    exfalso. rewrite Hz in Hfuel. cbn in Hfuel. lia.
  - cbn [pad_until]. destruct (Z.eqb_spec (vsize v mod 128) 0) as [Hz | Hnz].
    + exfalso. rewrite Hz in Hfuel. cbn in Hfuel. lia.
    + apply IH. rewrite vsize_app. change (vsize [0]) with 1.
      revert Hfuel Hnz. generalize (vsize v). intros s.
      Z.div_mod_to_equations. lia.
Qed.

(** The bytes missing after the code is appended. *)
Lemma spr_padding_code code bufsize :
  Z.to_nat ((128 - vsize ((spr_header (vsize code) bufsize ++ repeat 0 128)
                          ++ code) mod 128) mod 128)
  = spr_padding (vsize code).
Proof.
  rewrite !vsize_app, vsize_spr_header, vsize_repeat. unfold spr_padding. f_equal.
  generalize (vsize code). intros s. Z.div_mod_to_equations. lia.
Qed.

(** X20: the two padding loops of [mkspr].  The first ends without a
    round: header and bitmap are 256 bytes already.  The second makes
    exactly [spr_padding] rounds, the bytes missing to a multiple of 128,
    never more than 127: with fewer rounds allowed no image is built, with
    that many or more the image is the header and bitmap, the code, and
    that many zero bytes, whatever the allowance.  Its size is
    256 + 128 * ceil(code size / 128). *)
Theorem spr_image_size (fuel : nat) (code : list Z) (bufsize : Z) :
  let head := push_zeros 128 (spr_header (vsize code) bufsize) in
  let rounds := spr_padding (vsize code) in
  pad_until 0 (fun v => negb (vsize v <? 256)) head = Some head /\
  (rounds <= 127)%nat /\
  ((fuel < rounds)%nat -> spr_image fuel code bufsize = None) /\
  ((rounds <= fuel)%nat ->
   exists spr,
     spr_image fuel code bufsize = Some spr /\
     spr_image rounds code bufsize = Some spr /\
     spr = head ++ code ++ repeat 0 rounds /\
     vsize spr = 256 + 128 * ((vsize code + 127) / 128) /\
     vsize spr mod 128 = 0 /\
     vsize code <= vsize spr - 256 < vsize code + 128).
Proof.
  cbv zeta.
  assert (Hfirst : forall f,
            pad_until f (fun v => negb (vsize v <? 256))
              (push_zeros 128 (spr_header (vsize code) bufsize)) =
            Some (spr_header (vsize code) bufsize ++ repeat 0 128)).
  { intros f. rewrite push_zeros_repeat.
    assert (H256 : vsize (spr_header (vsize code) bufsize ++ repeat 0 128) = 256)
      by (rewrite vsize_app, vsize_spr_header, vsize_repeat; reflexivity).
    destruct f; cbn [pad_until]; rewrite H256; reflexivity. }
  assert (Himage : forall f, (spr_padding (vsize code) <= f)%nat ->
            spr_image f code bufsize =
            Some (push_zeros 128 (spr_header (vsize code) bufsize) ++ code ++
                  repeat 0 (spr_padding (vsize code)))).
  { intros f Hf. unfold spr_image. rewrite Hfirst.
    rewrite pad_until_multiple by (rewrite spr_padding_code; exact Hf).
    rewrite spr_padding_code, push_zeros_repeat, <- !app_assoc. reflexivity. }
  split; [ rewrite Hfirst, push_zeros_repeat; reflexivity | ].
  split.
  { unfold spr_padding. generalize (vsize code). intros s.
    assert (Z.to_nat ((128 - s mod 128) mod 128) <= 127)%nat
      by (Z.div_mod_to_equations; lia).
    assumption. }
  split.
  { intros Hlt. unfold spr_image. rewrite Hfirst.
    apply pad_until_short. rewrite spr_padding_code. exact Hlt. }
  intros Hfuel.
  exists (push_zeros 128 (spr_header (vsize code) bufsize) ++ code ++
          repeat 0 (spr_padding (vsize code))).
  split; [ apply Himage; exact Hfuel | ].
  split; [ apply Himage; apply le_n | ].
  split; [ reflexivity | ].
  assert (Hs : vsize (push_zeros 128 (spr_header (vsize code) bufsize) ++ code ++
                      repeat 0 (spr_padding (vsize code)))
               = 256 + vsize code + (128 - vsize code mod 128) mod 128).
  { rewrite push_zeros_repeat, !vsize_app, vsize_spr_header, !vsize_repeat.
    unfold spr_padding.
    rewrite Z2Nat.id by (apply Z.mod_pos_bound; lia). lia. }
  rewrite Hs. assert (0 <= vsize code) by (unfold vsize; lia).
  revert H. generalize (vsize code). intros s Hs0.
  repeat split; Z.div_mod_to_equations; lia.
Qed.

(** X21: what the image holds.  Bytes 1 and 2 are the code size and
    bytes 4 and 5 the buffer size, each low byte first and reduced to 16
    bits, so a code of 65536 bytes or more is recorded with a wrapped
    size; every other byte of the first 256, the relocation bitmap
    included, is 0; the code follows unchanged from byte 256 on; the rest
    is 0. *)
Theorem spr_image_layout (fuel : nat) (code : list Z) (bufsize : Z) :
  (127 <= fuel)%nat ->
  exists spr,
    spr_image fuel code bufsize = Some spr /\
    spr_field 1 spr = vsize code mod 65536 /\
    spr_field 4 spr = bufsize mod 65536 /\
    nth 0 spr 0 = 0 /\ nth 3 spr 0 = 0 /\
    firstn 250 (skipn 6 spr) = repeat 0 250 /\
    firstn (length code) (skipn 256 spr) = code /\
    skipn (256 + length code) spr = repeat 0 (spr_padding (vsize code)).
Proof.
  intros Hfuel.
  exists (spr_header (vsize code) bufsize ++ repeat 0 128 ++ code ++
          repeat 0 (spr_padding (vsize code))).
  split; [ apply spr_image_closed; exact Hfuel | ].
  rewrite spr_header_bytes.
  split; [ apply byte_pair | split; [ apply byte_pair | ] ].
  split; [ reflexivity | split; [ reflexivity | ] ].
  split; [ reflexivity | ].
  assert (Hhead : forall rest : list Z,
            skipn 256 (([0; Z.land (vsize code) 0xFF;
                         Z.land (Z.shiftr (vsize code) 8) 0xFF; 0;
                         Z.land bufsize 0xFF; Z.land (Z.shiftr bufsize 8) 0xFF]
                        ++ repeat 0 122) ++ repeat 0 128 ++ rest) = rest)
    by (intros rest; reflexivity).
  split.
  - rewrite Hhead. rewrite firstn_app, Nat.sub_diag, firstn_all.
    cbn [firstn]. apply app_nil_r.
  - rewrite (Nat.add_comm 256), <- skipn_skipn, Hhead.
    rewrite skipn_app, skipn_all, Nat.sub_diag. reflexivity.
Qed.

(** A code of exactly one record with no round allowed: neither loop
    needs one.  A code of 3 bytes: 125 rounds, and no fewer. *)
Lemma spr_image_size_run :
  (exists spr, spr_image 0 (repeat 0xC3 128) 512 = Some spr /\ vsize spr = 384) /\
  spr_image 124 [0xC3; 0x00; 0x01] 512 = None /\
  (exists spr, spr_image 125 [0xC3; 0x00; 0x01] 512 = Some spr /\ vsize spr = 384).
Proof.
  split; [ | split ].
  - destruct (spr_image_size 0 (repeat 0xC3 128) 512) as [_ [_ [_ H]]].
    destruct H as [spr [H1 [_ [_ [H2 _]]]]]; [ apply Nat.leb_le; reflexivity | ].
    exists spr. split; [ exact H1 | exact H2 ].
  - destruct (spr_image_size 124 [0xC3; 0x00; 0x01] 512) as [_ [_ [H _]]].
    apply H. apply Nat.ltb_lt. reflexivity.
  - destruct (spr_image_size 125 [0xC3; 0x00; 0x01] 512) as [_ [_ [_ H]]].
    destruct H as [spr [H1 [_ [_ [H2 _]]]]]; [ apply Nat.leb_le; reflexivity | ].
    exists spr. split; [ exact H1 | exact H2 ].
Defined.

(** An input of 3 bytes and a buffer of 512: the sizes in the header, the
    code at byte 256. *)
Lemma spr_image_layout_run :
  (127 <= 200)%nat /\
  exists spr,
    spr_image 200 [0xC3; 0x00; 0x01] 512 = Some spr /\
    spr_field 1 spr = 3 /\ spr_field 4 spr = 512 /\
    firstn 3 (skipn 256 spr) = [0xC3; 0x00; 0x01].
Proof.
  split; [ apply Nat.leb_le; reflexivity | ].
  destruct (spr_image_layout 200 [0xC3; 0x00; 0x01] 512)
    as [spr [H1 [H2 [H3 [_ [_ [_ [H4 _]]]]]]]];
    [ apply Nat.leb_le; reflexivity | ].
  exists spr. split; [ exact H1 | ].
  split; [ exact H2 | split; [ exact H3 | exact H4 ] ].
Defined.
